(** * portage.env.loaders: a shallow embedding of [pym/portage/env/loaders.py]

    The module is Python 2 code: a file opened with mode ['rb'] yields 8-bit
    [str] lines, so a line is a [string] of bytes here.  Python objects that
    the module handles dynamically ([None], strings, lists, tuples, dicts) are
    values of [pyval]; a raised exception is an explicit outcome. *)

From Stdlib Require Import Ascii String Bool.
From stdpp Require Import list strings gmap pretty.

Set Warnings "-register-all".
Local Open Scope string_scope.

(** ** Python strings *)

Module Str.

(** [str.isspace] on one byte in the C locale: TAB, LF, VT, FF, CR, SPACE. *)
Definition isspace (c : ascii) : bool :=
  let n := nat_of_ascii c in
  ((9 <=? n)%nat && (n <=? 13)%nat) || (n =? 32)%nat.

Definition len (s : string) : nat := String.length s.

(** [s.startswith(p)] *)
Definition startswith (s p : string) : bool := String.prefix p s.

Fixpoint lstrip (s : string) : string :=
  match s with
  | EmptyString => EmptyString
  | String c s' => if isspace c then lstrip s' else s
  end.

Fixpoint rstrip (s : string) : string :=
  match s with
  | EmptyString => EmptyString
  | String c s' =>
      match rstrip s' with
      | EmptyString => if isspace c then EmptyString else String c EmptyString
      | r => String c r
      end
  end.

(** [s.strip()]: whitespace removed at both ends. *)
Definition strip (s : string) : string := lstrip (rstrip s).

(** [s.split()]: the maximal runs of non-whitespace bytes, in order.
    [cur] is the run being read, when there is one. *)
Fixpoint split_go (cur : option string) (s : string) : list string :=
  match s with
  | EmptyString => option_list cur
  | String c s' =>
      if isspace c then (option_list cur ++ split_go None s')%list
      else split_go (Some (from_option (fun w => w ++ String c "") (String c "") cur)) s'
  end.

Definition split (s : string) : list string := split_go None s.

(** [s.split(sep)] for a one-byte separator: every occurrence cuts, empty
    segments are kept, and the result always has at least one segment. *)
Fixpoint split_on (sep : ascii) (s : string) : list string :=
  match s with
  | EmptyString => [EmptyString]
  | String c s' =>
      if Ascii.eqb c sep then EmptyString :: split_on sep s'
      else match split_on sep s' with
           | seg :: segs => String c seg :: segs
           | [] => [String c EmptyString]
           end
  end.

(** [c in s] for a byte [c]. *)
Fixpoint contains (c : ascii) (s : string) : bool :=
  match s with
  | EmptyString => false
  | String d s' => Ascii.eqb d c || contains c s'
  end.

End Str.

(** ** Python values, exceptions and outcomes *)

Inductive pyval : Type :=
  | VNone
  | VBool (b : bool)
  | VStr (s : string)
  | VList (l : list pyval)
  | VTuple (l : list pyval)
  | VDict (d : gmap string pyval).

Inductive exn : Type :=
  | TypeError
  | ValueError
  | AttributeError
  | IndexError
  | IOError
  | NotImplementedError.

(** The outcome of a call: a returned value or a raised exception. *)
Inductive outcome (A : Type) : Type :=
  | Return (a : A)
  | Raise (e : exn).
Arguments Return {A} a.
Arguments Raise {A} e.

#[global] Instance outcome_ret : MRet outcome := fun A a => Return a.
#[global] Instance outcome_bind : MBind outcome := fun A B k m =>
  match m with
  | Return a => k a
  | Raise e => Raise e
  end.

(** The list of strings [l] as a Python list object. *)
Definition strs (l : list string) : pyval := VList (VStr <$> l).

(** [l[i]] on a Python list. *)
Definition item {A : Type} (l : list A) (i : nat) : outcome A :=
  match l !! i with
  | Some x => Return x
  | None => Raise IndexError
  end.

(** ** DataLoader and the file loaders *)

(** The classes of the [FileLoader] family; [self.lineParser] is resolved on
    the class of the instance. *)
Inductive klass : Type :=
  | FileLoader_class
  | ItemFileLoader_class
  | KeyListFileLoader_class
  | KeyValuePairFileLoader_class.

(** A file-backed loader instance: its class and the two attributes that
    [DataLoader.__init__] and [FileLoader.__init__] set. *)
Record FileLoader : Type := {
  class_of : klass;
  fname : string;
  _validate : string -> bool
}.

Module DataLoader.

(** [DataLoader.__init__]: without a validator, one that accepts every key. *)
Definition init (validator : option (string -> bool)) : string -> bool :=
  match validator with
  | None => fun key => true
  | Some f => f
  end.

(** [DataLoader.load] *)
Definition load : outcome pyval := Raise NotImplementedError.

End DataLoader.

(** What one [load()] threads through every [lineParser] call: the two
    dicts [data] and [errors], which the parsers mutate in place, and the
    keys handed to [self._validate] so far, oldest first. *)
Record accum : Type := {
  data : gmap string pyval;
  errors : gmap string (list string);
  validated : list string
}.

(** [errors.setdefault(source, []).append(msg)] *)
Definition append_error (source msg : string) (st : accum) : accum :=
  {| data := data st;
     errors := <[source := (default [] (errors st !! source) ++ [msg])%list]> (errors st);
     validated := validated st |}.

(** [data[key] = v] *)
Definition set_data (key : string) (v : pyval) (st : accum) : accum :=
  {| data := <[key := v]> (data st);
     errors := errors st;
     validated := validated st |}.

(** The call [self._validate(key)]: its answer, and the call recorded. *)
Definition call_validate (self : FileLoader) (key : string) (st : accum)
    : bool * accum :=
  (_validate self key,
   {| data := data st; errors := errors st;
      validated := (validated st ++ [key])%list |}).

(** [if key in data: data[key].append(value) else: data[key] = value].
    Only a list has [append]. *)
Definition accumulate (key : string) (value : list string) (st : accum)
    : outcome accum :=
  match data st !! key with
  | Some (VList l) => Return (set_data key (VList (l ++ [strs value])%list) st)
  | Some _ => Raise AttributeError
  | None => Return (set_data key (strs value) st)
  end.

(** ["%s" % n] for a line number. *)
Definition fmt_int (n : nat) : string := pretty n.

Module FileLoaderBase.

Definition init (filename : string) (validator : option (string -> bool))
    : FileLoader :=
  {| class_of := FileLoader_class; fname := filename;
     _validate := DataLoader.init validator |}.

Definition lineParser (self : FileLoader) (line : string) (line_num : nat)
    (st : accum) : outcome accum :=
  Raise NotImplementedError.

End FileLoaderBase.

Module ItemFileLoader.

Definition init (filename : string) (validator : option (string -> bool))
    : FileLoader :=
  {| class_of := ItemFileLoader_class; fname := filename;
     _validate := DataLoader.init validator |}.

Definition lineParser (self : FileLoader) (line : string) (line_num : nat)
    (st : accum) : outcome accum :=
  let line := Str.strip line in
  if Str.startswith line "#" then Return st
  else if (Str.len line =? 0)%nat then Return st
  else
    let split := Str.split line in
    if (length split =? 0)%nat then
      Return (append_error (fname self)
                ("Malformed data at line: " ++ fmt_int (line_num + 1)
                   ++ ", data: " ++ line) st)
    else
      key ← item split 0;
      let '(ok, st) := call_validate self key st in
      if negb ok then
        Return (append_error (fname self)
                  ("Validation failed at line: " ++ fmt_int (line_num + 1)
                     ++ ", data " ++ key) st)
      else Return (set_data key VNone st).

End ItemFileLoader.

Module KeyListFileLoader.

Definition init (filename : string) (validator : option (string -> bool))
    : FileLoader :=
  {| class_of := KeyListFileLoader_class; fname := filename;
     _validate := DataLoader.init validator |}.

Definition lineParser (self : FileLoader) (line : string) (line_num : nat)
    (st : accum) : outcome accum :=
  let line := Str.strip line in
  if Str.startswith line "#" then Return st
  else if (Str.len line =? 0)%nat then Return st
  else
    let split := Str.split line in
    if (length split <? 2)%nat then
      Return (append_error (fname self)
                ("Malformed data at line: " ++ fmt_int (line_num + 1)
                   ++ ", data: " ++ line) st)
    else
      key ← item split 0;
      let value := drop 1 split in
      let '(ok, st) := call_validate self key st in
      if negb ok then
        Return (append_error (fname self)
                  ("Validation failed at line: " ++ fmt_int (line_num + 1)
                     ++ ", data " ++ key) st)
      else accumulate key value st.

End KeyListFileLoader.

Module KeyValuePairFileLoader.

Definition init (filename : string) (validator : option (string -> bool))
    : FileLoader :=
  {| class_of := KeyValuePairFileLoader_class; fname := filename;
     _validate := DataLoader.init validator |}.

Definition lineParser (self : FileLoader) (line : string) (line_num : nat)
    (st : accum) : outcome accum :=
  let line := Str.strip line in
  if Str.startswith line "#" then Return st
  else if (Str.len line =? 0)%nat then Return st
  else
    let split := Str.split_on "="%char line in
    if (length split <? 2)%nat then
      Return (append_error (fname self)
                ("Malformed data at line: " ++ fmt_int (line_num + 1)
                   ++ ", data " ++ line) st)
    else
      key ← item split 0;
      let value := drop 1 split in
      if (Str.len key =? 0)%nat then
        Return (append_error (fname self)
                  ("Malformed key at line: " ++ fmt_int (line_num + 1)
                     ++ ", key " ++ key) st)
      else
        let '(ok, st) := call_validate self key st in
        if negb ok then
          Return (append_error (fname self)
                    ("Validation failed at line: " ++ fmt_int (line_num + 1)
                       ++ ", data " ++ key) st)
        else accumulate key value st.

End KeyValuePairFileLoader.

(** [self.lineParser], looked up on the class of [self]. *)
Definition lineParser (self : FileLoader)
    : string -> nat -> accum -> outcome accum :=
  match class_of self with
  | FileLoader_class => FileLoaderBase.lineParser self
  | ItemFileLoader_class => ItemFileLoader.lineParser self
  | KeyListFileLoader_class => KeyListFileLoader.lineParser self
  | KeyValuePairFileLoader_class => KeyValuePairFileLoader.lineParser self
  end.

(** ** Builtins used by the enumerator *)

(** Truth value of an object. *)
Definition truthy (v : pyval) : bool :=
  match v with
  | VNone => false
  | VBool b => b
  | VStr s => negb (Str.len s =? 0)%nat
  | VList l | VTuple l => negb (length l =? 0)%nat
  | VDict d => negb (bool_decide (d = ∅))
  end.

(** [s.endswith(p)] *)
Definition endswith (s p : string) : bool :=
  Str.startswith (String.rev s) (String.rev p).

(** One prefix argument of [startswith]/[endswith]: a string, or a tuple of
    strings. *)
Definition affixes (v : pyval) : outcome (list string) :=
  match v with
  | VStr p => Return [p]
  | VTuple ps =>
      foldr (fun p acc =>
               match p with
               | VStr q => ps' ← acc; Return (q :: ps')
               | _ => Raise TypeError
               end) (Return []) ps
  | _ => Raise TypeError
  end.

(** The call [str.startswith(self, *args)] made on the class [str]: [self]
    is the first argument, the prefix is required.  The optional [start] and
    [end] must be integers, which [pyval] does not have. *)
Definition str_startswith (self : string) (args : list pyval) : outcome pyval :=
  match args with
  | [p] => ps ← affixes p; Return (VBool (existsb (Str.startswith self) ps))
  | _ => Raise TypeError
  end.

(** [str.endswith(self, *args)], likewise. *)
Definition str_endswith (self : string) (args : list pyval) : outcome pyval :=
  match args with
  | [p] => ps ← affixes p; Return (VBool (existsb (endswith self) ps))
  | _ => Raise TypeError
  end.

(** [filter(function, iterable)] of Python 2.  No [pyval] is callable, so
    the only [function] that can be applied to an item is [None] (keep the
    true items); anything else raises as soon as there is an item to test.
    A string or a tuple gives a result of its own type. *)
Definition py_filter (function iterable : pyval) : outcome pyval :=
  let keep (items : list pyval) : outcome (list pyval) :=
    match items, function with
    | [], _ => Return []
    | _, VNone => Return (List.filter truthy items)
    | _, _ => Raise TypeError
    end in
  match iterable with
  | VList items => items' ← keep items; Return (VList items')
  | VTuple items => items' ← keep items; Return (VTuple items')
  | VStr s =>
      match s, function with
      | EmptyString, _ | _, VNone => Return (VStr s)
      | _, _ => Raise TypeError
      end
  | VDict d => items' ← keep (VStr <$> (map_to_list d).*1); Return (VList items')
  | VNone | VBool _ => Raise TypeError
  end.

(** The items that [for f in v] visits. *)
Definition py_iter (v : pyval) : outcome (list pyval) :=
  match v with
  | VList items | VTuple items => Return items
  | VStr s => Return ((fun c => VStr (String c "")) <$> list_ascii_of_string s)
  | VDict d => Return (VStr <$> (map_to_list d).*1)
  | VNone | VBool _ => Raise TypeError
  end.

(** [l.remove(x)]: the first occurrence goes. *)
Fixpoint list_remove_first (x : string) (l : list string) : list string :=
  match l with
  | [] => []
  | y :: l' => if String.eqb y x then l' else y :: list_remove_first x l'
  end.

(** ** The file system *)

(** A node of the directory tree: a regular file with its lines (each with
    its line terminator, as iterating a file object gives them), or a
    directory with its entries in [os.listdir] order. *)
Inductive fsnode : Type :=
  | File (lines : list string)
  | Dir (entries : list (string * fsnode)).

(** What each path names, seen from the working directory of the process. *)
Abbreviation filesystem := (gmap string fsnode).

Definition is_dir (n : fsnode) : bool :=
  match n with
  | Dir _ => true
  | File _ => false
  end.

(** [os.path.isdir] *)
Definition isdir (fs : filesystem) (path : string) : bool :=
  from_option is_dir false (fs !! path).

(** [os.path.join(a, b)] for a relative [b]. *)
Definition join (a b : string) : string :=
  if (Str.len a =? 0)%nat || endswith a "/" then a +:+ b else a +:+ "/" +:+ b.

(** A generator run to its end: what it yielded, in order, and the
    exception that ended it, if one did. *)
Definition gen (A : Type) : Type := list A * option exn.

Definition gen_app {A : Type} (g1 g2 : gen A) : gen A :=
  match snd g1 with
  | Some e => g1
  | None => ((fst g1 ++ fst g2)%list, snd g2)
  end.

(** ** RecursiveFileLoader *)

(** The body of the [for root, dirs, files in os.walk(filename)] loop for one
    triple: the [dirs] left for [os.walk] to descend into (the body edits the
    list in place) and the names it yields, or the exception it raises. *)
Definition walk_body (root : string) (dirs files : list string)
    : outcome (list string * list pyval) :=
  let dirs :=
    if bool_decide ("CVS" ∈ dirs) then list_remove_first "CVS" dirs else dirs in
  p ← str_startswith "." [];
  files ← py_filter (strs files) p;
  p ← str_endswith "~" [];
  files ← py_filter files p;
  names ← py_iter files;
  Return (dirs, names).

(** [os.walk(top)], top down, with the loop body run between two triples:
    the sub-directories visited are those the body left in [dirs]. *)
Fixpoint walk (top : string) (node : fsnode) {struct node} : gen pyval :=
  match node with
  | File _ => ([], None)
  | Dir entries =>
      let dirs := (filter (fun e => is_dir e.2 = true) entries).*1 in
      let files := (filter (fun e => is_dir e.2 = false) entries).*1 in
      match walk_body top dirs files with
      | Raise e => ([], Some e)
      | Return (dirs, yielded) =>
          gen_app (yielded, None)
            ((fix descend (es : list (string * fsnode)) : gen pyval :=
                match es with
                | [] => ([], None)
                | (name, sub) :: es' =>
                    if is_dir sub && bool_decide (name ∈ dirs)
                    then gen_app (walk (join top name) sub) (descend es')
                    else descend es'
                end) entries)
      end
  end.

Definition RecursiveFileLoader (fs : filesystem) (filename : string)
    : gen pyval :=
  if isdir fs filename then
    from_option (walk filename) ([], None) (fs !! filename)
  else ([VStr filename], None).

(** ** FileLoader.load *)

(** [open(fn, 'rb')], as the lines the file object iterates over. *)
Definition open_rb (fs : filesystem) (fn : pyval) : outcome (list string) :=
  match fn with
  | VStr path =>
      match fs !! path with
      | Some (File lines) => Return lines
      | _ => Raise IOError
      end
  | _ => Raise TypeError
  end.

(** [for line_num, line in enumerate(f): func(line, line_num, data, errors)],
    from index [line_num] on. *)
Fixpoint parse_lines (func : string -> nat -> accum -> outcome accum)
    (lines : list string) (line_num : nat) (st : accum) : outcome accum :=
  match lines with
  | [] => Return st
  | line :: lines' =>
      st' ← func line line_num st;
      parse_lines func lines' (S line_num) st'
  end.

(** The [for fn in ...] loop over the paths the enumerator yielded. *)
Fixpoint parse_files (func : string -> nat -> accum -> outcome accum)
    (fs : filesystem) (fns : list pyval) (st : accum) : outcome accum :=
  match fns with
  | [] => Return st
  | fn :: fns' =>
      f ← open_rb fs fn;
      st' ← parse_lines func f 0 st;
      parse_files func fs fns' st'
  end.

Definition empty_accum : accum :=
  {| data := ∅; errors := ∅; validated := [] |}.

Module FileLoader.

(** [FileLoader.load]: the accumulated state, whose [data] and [errors]
    are the pair returned.  The enumerator is a generator, so the paths it
    yields are read before the exception that ends it, if any, shows. *)
Definition load (self : FileLoader) (fs : filesystem) : outcome accum :=
  let func := lineParser self in
  let '(fns, stop) := RecursiveFileLoader fs (fname self) in
  st ← parse_files func fs fns empty_accum;
  match stop with
  | Some e => Raise e
  | None => Return st
  end.

End FileLoader.

(** ** EnvLoader *)

Module EnvLoader.

(** [EnvLoader.load]: the object [os.environ], a mapping from names to
    strings. *)
Definition load (environ : gmap string string) : outcome pyval :=
  Return (VDict (VStr <$> environ)).

End EnvLoader.

(** ** TestTextLoader *)

Module TestTextLoader.

Record t : Type := {
  validate : string -> bool;
  data : pyval;
  errors : pyval
}.

Definition init (validator : option (string -> bool)) : t :=
  {| validate := DataLoader.init validator;
     data := VDict ∅;
     errors := VDict ∅ |}.

(** [setData]: the instance after the call, and how the call ended. *)
Definition setData (self : t) (text : pyval) : t * outcome pyval :=
  match text with
  | VDict _ =>
      ({| validate := validate self; data := text; errors := errors self |},
       Return VNone)
  | _ => (self, Raise ValueError)
  end.

Definition setErrors (self : t) (errs : pyval) : t * outcome pyval :=
  ({| validate := validate self; data := data self; errors := errs |},
   Return VNone).

Definition load (self : t) : outcome pyval :=
  Return (VTuple [data self; errors self]).

End TestTextLoader.

(** ** Vocabulary of the statements *)

(** The state once [self._validate(key)] has been called. *)
Definition asked (self : FileLoader) (key : string) (st : accum) : accum :=
  (call_validate self key st).2.

(** A line that the parsers skip: a comment, or nothing once trimmed. *)
Definition skipped (line : string) : Prop :=
  Str.startswith (Str.strip line) "#" = true \/ Str.strip line = "".

(** From [st] to [st'] the error collection is untouched, or has one more
    message at the end of the list stored under [source]. *)
Definition errors_step (source : string) (st st' : accum) : Prop :=
  errors st' = errors st \/
  exists msg,
    errors st' =
      <[source := (default [] (errors st !! source) ++ [msg])%list]> (errors st).

(** Every value stored in [data] is a list. *)
Definition lists_only (st : accum) : Prop :=
  forall key v, data st !! key = Some v -> exists l, v = VList l.

(** What [load()] keeps true of its state for the class of [self], and
    what keeps its parser from raising: the item parser asks nothing, the
    two list parsers only ever append to lists, the base class has no parser. *)
Definition sound (self : FileLoader) (st : accum) : Prop :=
  match class_of self with
  | FileLoader_class => False
  | ItemFileLoader_class => True
  | KeyListFileLoader_class | KeyValuePairFileLoader_class => lists_only st
  end.

(** Loaders and inputs of the examples. *)
Definition mask_loader : FileLoader :=
  ItemFileLoader.init "package.mask" None.

Definition strict_mask_loader : FileLoader :=
  ItemFileLoader.init "package.mask" (Some (fun key => false)).

Definition use_loader : FileLoader :=
  KeyListFileLoader.init "package.use" None.

Definition make_conf_loader : FileLoader :=
  KeyValuePairFileLoader.init "make.conf" (Some (fun key => true)).

Definition conf_d_loader : FileLoader :=
  KeyListFileLoader.init "conf.d" None.

Definition conf_d_files : list pyval := [VStr "conf.d/a"; VStr "conf.d/b"].

(** A space, a tab and a line feed. *)
Definition blank_line : string := String "032" (String "009" (String "010" "")).

Definition held_data : pyval := VDict {[ "sys-apps/portage" := VNone ]}.

Definition text_loader : TestTextLoader.t :=
  (TestTextLoader.setData (TestTextLoader.init None) held_data).1.

(** A directory with a hidden file, a backup file and a plain one. *)
Definition env_dir : filesystem :=
  {[ "/etc/portage/env" :=
       Dir [(".hidden", File []); ("backup~", File []); ("real.conf", File [])] ]}.

(** Two files under a directory [conf.d], each with a line that only has a
    key, which the key-list grammar rejects. *)
Definition conf_d : filesystem :=
  {[ "conf.d/a" := File ["one" +:+ String "010" ""];
     "conf.d/b" := File ["#ok" +:+ String "010" ""; "two" +:+ String "010" ""] ]}.

(** ** LoaderError *)

Module LoaderError.

Record t : Type := {
  resource : string;
  error_msg : string
}.

Definition init (resource error_msg : string) : t :=
  {| resource := resource; error_msg := error_msg |}.

(** [LoaderError.__str__] *)
Definition str (self : t) : string :=
  "Failed while loading resource: " +:+ resource self
    +:+ ", error was: " +:+ error_msg self.

End LoaderError.

(** ** Vocabulary of the further statements *)

(** Every value stored in [data] is [None]. *)
Definition all_None (st : accum) : Prop :=
  forall key v, data st !! key = Some v -> v = VNone.

(** Every key of [data] satisfies [P]. *)
Definition keys_are (P : string -> Prop) (st : accum) : Prop :=
  forall key, is_Some (data st !! key) -> P key.

(** [s] has a whitespace byte. *)
Fixpoint has_space (s : string) : bool :=
  match s with
  | EmptyString => false
  | String c s' => Str.isspace c || has_space s'
  end.

(** A token of [split()]: not empty, no whitespace. *)
Definition token (s : string) : Prop := s <> "" /\ has_space s = false.

(** A key of the key=value grammar: not empty, no [=]. *)
Definition kv_key (s : string) : Prop :=
  s <> "" /\ Str.contains "=" s = false.

(** The key that a line stands for in the grammar of class [cls]: its first
    whitespace-separated token, or for key=value lines its first
    [=]-separated segment; [""] when the line has none. *)
Definition line_key (cls : klass) (line : string) : string :=
  match cls with
  | KeyValuePairFileLoader_class =>
      default "" (head (Str.split_on "=" (Str.strip line)))
  | _ => default "" (head (Str.split (Str.strip line)))
  end.


(** [msg] reports a line that does not fit the grammar. *)
Definition malformed (msg : string) : Prop :=
  Str.startswith msg "Malformed data at line: " = true \/
  Str.startswith msg "Malformed key at line: " = true.

(** [msg] is one of the three diagnostics of the parsers. *)
Definition diagnostic (msg : string) : Prop :=
  malformed msg \/ Str.startswith msg "Validation failed at line: " = true.

(** From [st] to [st'] the line was rejected: [msg] was appended under
    [source], [data] was left alone, and the validator was called with
    [calls], in this order. *)
Definition rejected (source msg : string) (calls : list string)
    (st st' : accum) : Prop :=
  data st' = data st /\
  validated st' = (validated st ++ calls)%list /\
  errors st' =
    <[source := (default [] (errors st !! source) ++ [msg])%list]> (errors st).

(** The keys that the grammar of class [cls] can store. *)
Definition good_key (cls : klass) (key : string) : Prop :=
  match cls with
  | KeyValuePairFileLoader_class => kv_key key
  | _ => token key
  end.

(** The value [v] that an accepted line of class [cls] stores under [key]
    in the state [st]: [None] for an item; for the two list grammars the
    line's value list, or the list already held with that value list as one
    more element. *)
Definition stored (cls : klass) (st : accum) (key : string) (v : pyval)
    : Prop :=
  match cls with
  | ItemFileLoader_class => v = VNone
  | _ =>
      exists value, value <> [] /\
        ((data st !! key = None /\ v = strs value) \/
         (exists l, data st !! key = Some (VList l) /\
                    v = VList (l ++ [strs value])%list))
  end.

(** What a call [self.lineParser(line, n, data, errors)] that returns can
    have done to the state [st]. *)
Inductive effect (self : FileLoader) (line : string) (n : nat) (st : accum)
    : accum -> Prop :=
  | effect_skip :
      skipped line ->
      effect self line n st st
  | effect_malformed (msg : string) :
      malformed msg ->
      effect self line n st (append_error (fname self) msg st)
  | effect_refused (key : string) :
      line_key (class_of self) line = key ->
      _validate self key = false ->
      effect self line n st
        (append_error (fname self)
           ("Validation failed at line: " +:+ fmt_int (n + 1)
              +:+ ", data " +:+ key) (asked self key st))
  | effect_stored (key : string) (v : pyval) :
      line_key (class_of self) line = key ->
      _validate self key = true ->
      good_key (class_of self) key ->
      stored (class_of self) st key v ->
      effect self line n st (set_data key v (asked self key st)).

(** [v'] is [v], or the list [v] with more elements at its end. *)
Definition extends (v v' : pyval) : Prop :=
  v' = v \/ exists l more, v = VList l /\ v' = VList (l ++ more)%list.

(** Whatever [st] holds, [st'] still holds, possibly extended. *)
Definition keeps (st st' : accum) : Prop :=
  forall key v,
    data st !! key = Some v ->
    exists v', data st' !! key = Some v' /\ extends v v'.

(** Further loaders and files of the examples. *)
Definition base_loader : FileLoader := FileLoaderBase.init "plain" None.

Definition kv_loader : FileLoader :=
  KeyValuePairFileLoader.init "make.conf" None.

(** A validator that only accepts keys with a [/]. *)
Definition atom_loader : FileLoader :=
  KeyListFileLoader.init "package.use" (Some (Str.contains "/")).

Definition nl : string := String "010" "".

Definition mask_fs : filesystem :=
  {[ "package.mask" :=
       File ["# masked" +:+ nl; "sys-apps/portage extra" +:+ nl; nl;
             "app-misc/foo" +:+ nl; "sys-apps/portage" +:+ nl];
     "plain" := File ["anything" +:+ nl];
     "empty" := File [] ]}.

Definition use_fs : filesystem :=
  {[ "package.use" :=
       File ["sys-apps/portage doc" +:+ nl; "lonely" +:+ nl;
             "portage build" +:+ nl;
             "sys-apps/portage -ipc python3" +:+ nl] ]}.

Definition make_conf_fs : filesystem :=
  {[ "make.conf" :=
       File ["USE=doc" +:+ nl; "no separator" +:+ nl; "=orphan" +:+ nl;
             "CFLAGS = -O2 -pipe" +:+ nl] ]}.

(** * Properties *)

(** ** Strings *)

Section StringFacts.

Lemma lstrip_head (s : string) (c : ascii) (r : string) :
  Str.lstrip s = String c r -> Str.isspace c = false.
Proof.
  induction s as [|a s IH]; simpl; [discriminate|].
  destruct (Str.isspace a) eqn:Ha; [exact IH|].
  intros E; injection E as <- _; exact Ha.
Qed.

Lemma strip_head (s : string) (c : ascii) (r : string) :
  Str.strip s = String c r -> Str.isspace c = false.
Proof. apply lstrip_head. Qed.

Lemma lstrip_keeps (c : ascii) (r : string) :
  Str.isspace c = false -> Str.lstrip (String c r) = String c r.
Proof. intros H; simpl; rewrite H; reflexivity. Qed.

Lemma rstrip_keeps_head (c : ascii) (s : string) :
  Str.isspace c = false -> exists r, Str.rstrip (String c s) = String c r.
Proof.
  intros H; simpl. destruct (Str.rstrip s); [rewrite H|]; eauto.
Qed.

(** A line that starts with a non-blank byte still starts with it after
    [strip]. *)
Lemma strip_keeps_head (c : ascii) (s : string) :
  Str.isspace c = false -> exists r, Str.strip (String c s) = String c r.
Proof.
  intros H. destruct (rstrip_keeps_head c s H) as [r Hr].
  exists r. unfold Str.strip. rewrite Hr. apply lstrip_keeps, H.
Qed.

Lemma split_go_open (w s : string) : Str.split_go (Some w) s <> [].
Proof.
  revert w; induction s as [|a s IH]; intros w; simpl; [discriminate|].
  destruct (Str.isspace a); [discriminate|apply IH].
Qed.

(** [split()] of a string that starts with a non-blank byte has a token. *)
Lemma split_head (c : ascii) (r : string) :
  Str.isspace c = false -> Str.split (String c r) <> [].
Proof.
  intros H; unfold Str.split; simpl; rewrite H. apply split_go_open.
Qed.

Lemma split_strip_nonempty (line : string) :
  Str.strip line <> "" -> Str.split (Str.strip line) <> [].
Proof.
  destruct (Str.strip line) as [|c r] eqn:E; [congruence|].
  intros _. apply split_head, (strip_head line c r E).
Qed.

Lemma split_on_nonempty (sep : ascii) (s : string) : Str.split_on sep s <> [].
Proof.
  induction s as [|c s IH]; simpl; [discriminate|].
  destruct (Ascii.eqb c sep); [discriminate|].
  destruct (Str.split_on sep s); discriminate.
Qed.

(** The first segment ends at the first separator. *)
Lemma split_on_first (sep : ascii) (key rest : string) :
  Str.contains sep key = false ->
  Str.split_on sep (key +:+ String sep rest) = key :: Str.split_on sep rest.
Proof.
  induction key as [|c key IH]; simpl.
  - intros _. rewrite Ascii.eqb_refl. reflexivity.
  - intros H. apply orb_false_elim in H as [Hc Hk].
    rewrite Hc, (IH Hk). reflexivity.
Qed.

Lemma prefix_empty (s : string) : String.prefix "" s = true.
Proof. by destruct s. Qed.

Lemma startswith_char (c a : ascii) (s : string) :
  Str.startswith (String c s) (String a "") =
    if ascii_dec a c then true else false.
Proof.
  unfold Str.startswith.
  change (String.prefix (String a "") (String c s))
    with (if ascii_dec a c then String.prefix "" s else false).
  destruct (ascii_dec a c); [apply prefix_empty|reflexivity].
Qed.

(** Whether a non-empty string starts with a given byte does not depend on
    what is appended to it. *)
Lemma startswith_char_app (c a : ascii) (s t : string) :
  Str.startswith (String c s +:+ t) (String a "") =
    Str.startswith (String c s) (String a "").
Proof.
  change (String c s +:+ t) with (String c (s +:+ t)).
  by rewrite !startswith_char.
Qed.

Lemma len_zero (s : string) : (Str.len s =? 0)%nat = true <-> s = "".
Proof.
  destruct s; simpl; split; intros H; try reflexivity; discriminate.
Qed.

Lemma len_nonzero (s : string) : s <> "" -> (Str.len s =? 0)%nat = false.
Proof. destruct s; [congruence|reflexivity]. Qed.

End StringFacts.

(** ** The line parsers, case by case *)

Section Parsers.

Variable self : FileLoader.

Lemma item_skip (line : string) (n : nat) (st : accum) :
  skipped line -> ItemFileLoader.lineParser self line n st = Return st.
Proof.
  unfold ItemFileLoader.lineParser; cbv zeta. intros [H|H]; rewrite H; [done|].
  by destruct (Str.startswith "" "#").
Qed.

Lemma keylist_skip (line : string) (n : nat) (st : accum) :
  skipped line -> KeyListFileLoader.lineParser self line n st = Return st.
Proof.
  unfold KeyListFileLoader.lineParser; cbv zeta. intros [H|H]; rewrite H; [done|].
  by destruct (Str.startswith "" "#").
Qed.

Lemma kv_skip (line : string) (n : nat) (st : accum) :
  skipped line -> KeyValuePairFileLoader.lineParser self line n st = Return st.
Proof.
  unfold KeyValuePairFileLoader.lineParser; cbv zeta.
  intros [H|H]; rewrite H; [done|].
  by destruct (Str.startswith "" "#").
Qed.

Lemma split_tokens_nonblank (s key : string) (rest : list string) :
  Str.split s = key :: rest -> (Str.len s =? 0)%nat = false.
Proof. destruct s; [discriminate|reflexivity]. Qed.

(** A line with a first token [key]: the validator decides. *)
Lemma item_parse (line : string) (n : nat) (st : accum)
    (key : string) (rest : list string) :
  Str.startswith (Str.strip line) "#" = false ->
  Str.split (Str.strip line) = key :: rest ->
  ItemFileLoader.lineParser self line n st =
    if _validate self key then Return (set_data key VNone (asked self key st))
    else Return (append_error (fname self)
                   ("Validation failed at line: " ++ fmt_int (n + 1)
                      ++ ", data " ++ key) (asked self key st)).
Proof.
  intros Hc Hs. unfold ItemFileLoader.lineParser; cbv zeta.
  rewrite Hc, (split_tokens_nonblank _ _ _ Hs), Hs. simpl.
  by destruct (_validate self key).
Qed.

(** A line with a key and at least one more token. *)
Lemma keylist_parse (line : string) (n : nat) (st : accum)
    (key v : string) (vs : list string) :
  Str.startswith (Str.strip line) "#" = false ->
  Str.split (Str.strip line) = key :: v :: vs ->
  KeyListFileLoader.lineParser self line n st =
    if _validate self key then accumulate key (v :: vs) (asked self key st)
    else Return (append_error (fname self)
                   ("Validation failed at line: " ++ fmt_int (n + 1)
                      ++ ", data " ++ key) (asked self key st)).
Proof.
  intros Hc Hs. unfold KeyListFileLoader.lineParser; cbv zeta.
  rewrite Hc, (split_tokens_nonblank _ _ _ Hs), Hs. simpl.
  by destruct (_validate self key).
Qed.

(** A line with a single token. *)
Lemma keylist_short (line : string) (n : nat) (st : accum) (key : string) :
  Str.startswith (Str.strip line) "#" = false ->
  Str.split (Str.strip line) = [key] ->
  KeyListFileLoader.lineParser self line n st =
    Return (append_error (fname self)
              ("Malformed data at line: " ++ fmt_int (n + 1)
                 ++ ", data: " ++ Str.strip line) st).
Proof.
  intros Hc Hs. unfold KeyListFileLoader.lineParser; cbv zeta.
  by rewrite Hc, (split_tokens_nonblank _ _ _ Hs), Hs.
Qed.

(** A line with no [=] at all. *)
Lemma kv_short (line : string) (n : nat) (st : accum) (seg : string) :
  Str.startswith (Str.strip line) "#" = false ->
  Str.strip line <> "" ->
  Str.split_on "=" (Str.strip line) = [seg] ->
  KeyValuePairFileLoader.lineParser self line n st =
    Return (append_error (fname self)
              ("Malformed data at line: " ++ fmt_int (n + 1)
                 ++ ", data " ++ Str.strip line) st).
Proof.
  intros Hc Hn Hs. unfold KeyValuePairFileLoader.lineParser; cbv zeta.
  by rewrite Hc, (len_nonzero _ Hn), Hs.
Qed.

(** A line with an [=] and nothing before the first one. *)
Lemma kv_no_key (line : string) (n : nat) (st : accum)
    (v : string) (vs : list string) :
  Str.startswith (Str.strip line) "#" = false ->
  Str.strip line <> "" ->
  Str.split_on "=" (Str.strip line) = "" :: v :: vs ->
  KeyValuePairFileLoader.lineParser self line n st =
    Return (append_error (fname self)
              ("Malformed key at line: " ++ fmt_int (n + 1) ++ ", key ") st).
Proof.
  intros Hc Hn Hs. unfold KeyValuePairFileLoader.lineParser; cbv zeta.
  by rewrite Hc, (len_nonzero _ Hn), Hs.
Qed.

(** A line with an [=] and a key before the first one. *)
Lemma kv_parse (line : string) (n : nat) (st : accum)
    (key v : string) (vs : list string) :
  Str.startswith (Str.strip line) "#" = false ->
  key <> "" ->
  Str.split_on "=" (Str.strip line) = key :: v :: vs ->
  KeyValuePairFileLoader.lineParser self line n st =
    if _validate self key then accumulate key (v :: vs) (asked self key st)
    else Return (append_error (fname self)
                   ("Validation failed at line: " ++ fmt_int (n + 1)
                      ++ ", data " ++ key) (asked self key st)).
Proof.
  intros Hc Hk Hs. unfold KeyValuePairFileLoader.lineParser; cbv zeta.
  assert (Str.strip line <> "") as Hn.
  { intros E; rewrite E in Hs; simpl in Hs; congruence. }
  rewrite Hc, (len_nonzero _ Hn), Hs. simpl.
  rewrite (len_nonzero _ Hk). by destruct (_validate self key).
Qed.

End Parsers.

(** ** Comment and blank lines *)

(** C6: for each of the three line parsers (item-list, key-list, key=value),
    a line whose trimmed text starts with [#], or that is empty once
    trimmed, leaves the data mapping and the error collection as they
    were: the parser returns the state it was given. *)
Theorem comment_or_blank_line_changes_nothing
    (self : FileLoader) (line : string) (n : nat) (st : accum) :
  skipped line ->
  ItemFileLoader.lineParser self line n st = Return st /\
  KeyListFileLoader.lineParser self line n st = Return st /\
  KeyValuePairFileLoader.lineParser self line n st = Return st.
Proof.
  intros H. split; [|split].
  - by apply item_skip.
  - by apply keylist_skip.
  - by apply kv_skip.
Qed.

Lemma comment_or_blank_line_changes_nothing_witness :
  (skipped "#comment" /\ skipped blank_line) /\
  (ItemFileLoader.lineParser mask_loader "#comment" 0 empty_accum
     = Return empty_accum /\
   KeyListFileLoader.lineParser mask_loader "#comment" 0 empty_accum
     = Return empty_accum /\
   KeyValuePairFileLoader.lineParser mask_loader "#comment" 0 empty_accum
     = Return empty_accum) /\
  (ItemFileLoader.lineParser mask_loader blank_line 1 empty_accum
     = Return empty_accum /\
   KeyListFileLoader.lineParser mask_loader blank_line 1 empty_accum
     = Return empty_accum /\
   KeyValuePairFileLoader.lineParser mask_loader blank_line 1 empty_accum
     = Return empty_accum).
Proof.
  assert (skipped "#comment") as Hc by (left; reflexivity).
  assert (skipped blank_line) as Hb by (right; reflexivity).
  split; [split; assumption|]. split.
  - exact (comment_or_blank_line_changes_nothing
             mask_loader "#comment" 0 empty_accum Hc).
  - exact (comment_or_blank_line_changes_nothing
             mask_loader blank_line 1 empty_accum Hb).
Defined.

(** ** Item lists *)

(** C7: an item-list line that is not a comment and whose first token [key]
    passes validation sets [data[key] = None] and records no error; parsing
    a second such line with the same first token then leaves [data] and
    [errors] exactly as the first parse left them. *)
Theorem item_key_is_None_and_repeat_is_idempotent
    (self : FileLoader) (line line' : string) (n n' : nat) (st : accum)
    (key : string) (rest rest' : list string) :
  Str.startswith (Str.strip line) "#" = false ->
  Str.split (Str.strip line) = key :: rest ->
  Str.startswith (Str.strip line') "#" = false ->
  Str.split (Str.strip line') = key :: rest' ->
  _validate self key = true ->
  exists st1 st2,
    ItemFileLoader.lineParser self line n st = Return st1 /\
    data st1 = <[key := VNone]> (data st) /\
    data st1 !! key = Some VNone /\
    errors st1 = errors st /\
    ItemFileLoader.lineParser self line' n' st1 = Return st2 /\
    data st2 = data st1 /\
    errors st2 = errors st1.
Proof.
  intros Hc Hs Hc' Hs' Hv.
  exists (set_data key VNone (asked self key st)).
  exists (set_data key VNone
            (asked self key (set_data key VNone (asked self key st)))).
  rewrite (item_parse self line n st key rest Hc Hs), Hv.
  rewrite (item_parse self line' n' _ key rest' Hc' Hs'), Hv.
  simpl. repeat split.
  - apply lookup_insert_eq.
  - apply insert_insert_eq.
Qed.

Lemma item_key_is_None_and_repeat_is_idempotent_witness :
  exists st1 st2,
    ItemFileLoader.lineParser mask_loader "item1 ignored" 0 empty_accum
      = Return st1 /\
    data st1 = <["item1" := VNone]> (data empty_accum) /\
    data st1 !! "item1" = Some VNone /\
    errors st1 = errors empty_accum /\
    ItemFileLoader.lineParser mask_loader "  item1" 3 st1 = Return st2 /\
    data st2 = data st1 /\
    errors st2 = errors st1.
Proof.
  apply (item_key_is_None_and_repeat_is_idempotent
           mask_loader "item1 ignored" "  item1" 0 3 empty_accum "item1" ["ignored"] []);
    reflexivity.
Defined.

(** C10: in [ItemFileLoader.lineParser] the zero-token branch cannot be
    taken: a trimmed line that is not empty always splits into at least one
    token.  So every call returns, and what it returns is the state
    unchanged, or [data[key] = None] set, or a "Validation failed" message
    appended; any message the call adds to the error collection starts with
    "Validation failed", never with "Malformed data". *)
Theorem item_malformed_data_branch_unreachable
    (self : FileLoader) (line : string) (n : nat) (st : accum) :
  (Str.strip line <> "" ->
   (length (Str.split (Str.strip line)) =? 0)%nat = false) /\
  (ItemFileLoader.lineParser self line n st = Return st \/
   (exists key,
      ItemFileLoader.lineParser self line n st =
        Return (set_data key VNone (asked self key st))) \/
   (exists key,
      ItemFileLoader.lineParser self line n st =
        Return (append_error (fname self)
                  ("Validation failed at line: " ++ fmt_int (n + 1)
                     ++ ", data " ++ key) (asked self key st)))) /\
  (forall st' source msg,
     ItemFileLoader.lineParser self line n st = Return st' ->
     msg ∈ default [] (errors st' !! source) ->
     msg ∈ default [] (errors st !! source) \/
     Str.startswith msg "Validation failed" = true).
Proof.
  assert (Str.strip line <> "" ->
          (length (Str.split (Str.strip line)) =? 0)%nat = false) as Htok.
  { intros Hn. pose proof (split_strip_nonempty line Hn) as Hs.
    by destruct (Str.split (Str.strip line)). }
  assert (ItemFileLoader.lineParser self line n st = Return st \/
   (exists key,
      ItemFileLoader.lineParser self line n st =
        Return (set_data key VNone (asked self key st))) \/
   (exists key,
      ItemFileLoader.lineParser self line n st =
        Return (append_error (fname self)
                  ("Validation failed at line: " ++ fmt_int (n + 1)
                     ++ ", data " ++ key) (asked self key st)))) as Hcases.
  { destruct (Str.startswith (Str.strip line) "#") eqn:Hc.
    { left. apply item_skip. by left. }
    destruct (Str.strip line) as [|c r] eqn:E.
    { left. apply item_skip. by right. }
    destruct (Str.split (String c r)) as [|key rest] eqn:Hs.
    { exfalso. apply (split_strip_nonempty line); rewrite E; [done|exact Hs]. }
    right. rewrite <- E in Hc, Hs.
    rewrite (item_parse self line n st key rest Hc Hs).
    destruct (_validate self key); [left|right]; by exists key. }
  split; [exact Htok|]. split; [exact Hcases|].
  intros st' source msg Hrun Hin.
  destruct Hcases as [H|[[key H]|[key H]]]; rewrite H in Hrun;
    injection Hrun as <-; simpl in Hin; [by left..|].
  destruct (decide (source = fname self)) as [->|Hne].
  - rewrite lookup_insert_eq in Hin. simpl in Hin.
    apply elem_of_app in Hin as [Hin|Hin]; [by left|].
    apply list_elem_of_singleton in Hin as ->. by right.
  - rewrite lookup_insert_ne in Hin by done. by left.
Qed.

Lemma item_malformed_data_branch_unreachable_witness :
  Str.strip "  x y " <> "" /\
  (length (Str.split (Str.strip "  x y ")) =? 0)%nat = false /\
  ItemFileLoader.lineParser strict_mask_loader "  x y " 6 empty_accum =
    Return (append_error "package.mask" "Validation failed at line: 7, data x"
              (asked strict_mask_loader "x" empty_accum)).
Proof.
  destruct (item_malformed_data_branch_unreachable
              strict_mask_loader "  x y " 6 empty_accum)
    as [Htok _].
  assert (Str.strip "  x y " <> "") as Hn by discriminate.
  split; [exact Hn|]. split; [exact (Htok Hn)|reflexivity].
Defined.

(** ** Key=value lines *)

(** C4: a key=value line, that is a trimmed line [key=rest] with a
    non-empty [key] that holds no [=] and does not start with [#], parsed by
    a [KeyValuePairFileLoader] without validator into a [data] that has no
    entry for [key], sets [data[key]] to the list of the [=]-separated
    segments of [rest], in order, and records no error.  At ["a=b=c"] this
    is [data["a"] == ["b", "c"]]. *)
Theorem kv_line_stores_segments_after_first_eq
    (filename line : string) (n : nat) (st : accum) (key rest : string) :
  Str.strip line = key +:+ String "=" rest ->
  Str.contains "=" key = false ->
  key <> "" ->
  Str.startswith key "#" = false ->
  data st !! key = None ->
  exists st',
    KeyValuePairFileLoader.lineParser
      (KeyValuePairFileLoader.init filename None) line n st = Return st' /\
    data st' = <[key := strs (Str.split_on "=" rest)]> (data st) /\
    data st' !! key = Some (strs (Str.split_on "=" rest)) /\
    errors st' = errors st.
Proof.
  intros Hline Hsep Hkey Hhash Hnew.
  set (self := KeyValuePairFileLoader.init filename None).
  assert (Str.startswith (Str.strip line) "#" = false) as Hc.
  { rewrite Hline. destruct key as [|c key]; [done|].
    by rewrite startswith_char_app. }
  pose proof (split_on_first "=" key rest Hsep) as Hs. rewrite <- Hline in Hs.
  destruct (Str.split_on "=" rest) as [|v vs] eqn:Hrest.
  { by destruct (split_on_nonempty "=" rest). }
  rewrite (kv_parse self line n st key v vs Hc Hkey Hs). simpl.
  unfold accumulate. simpl. rewrite Hnew.
  eexists; split; [reflexivity|]. simpl. repeat split.
  apply lookup_insert_eq.
Qed.

Lemma kv_line_stores_segments_after_first_eq_witness :
  exists st',
    KeyValuePairFileLoader.lineParser
      (KeyValuePairFileLoader.init "make.conf" None) "a=b=c" 0 empty_accum
      = Return st' /\
    data st' = <["a" := strs ["b"; "c"]]> ∅ /\
    data st' !! "a" = Some (VList [VStr "b"; VStr "c"]) /\
    errors st' = ∅.
Proof.
  apply (kv_line_stores_segments_after_first_eq
           "make.conf" "a=b=c" 0 empty_accum "a" "b=c");
    [reflexivity|reflexivity|discriminate|reflexivity|reflexivity].
Defined.

(** C5: a key=value line whose trimmed text starts with [=], so that
    nothing stands before the first [=], appends one "Malformed key" message
    under the loader's path, leaves [data] as it was, and does not call the
    validator. *)
Theorem kv_empty_key_is_malformed_key
    (self : FileLoader) (line : string) (n : nat) (st : accum) (rest : string) :
  Str.strip line = String "=" rest ->
  exists st',
    KeyValuePairFileLoader.lineParser self line n st = Return st' /\
    errors st' =
      <[fname self :=
          (default [] (errors st !! fname self)
             ++ ["Malformed key at line: " +:+ fmt_int (n + 1) +:+ ", key "])%list]>
        (errors st) /\
    data st' = data st /\
    validated st' = validated st.
Proof.
  intros Hline.
  assert (Str.startswith (Str.strip line) "#" = false) as Hc by by rewrite Hline.
  assert (Str.strip line <> "") as Hn by by rewrite Hline.
  destruct (Str.split_on "=" rest) as [|v vs] eqn:Hrest.
  { by destruct (split_on_nonempty "=" rest). }
  assert (Str.split_on "=" (Str.strip line) = "" :: v :: vs) as Hs.
  { rewrite Hline. simpl. by rewrite Hrest. }
  rewrite (kv_no_key self line n st v vs Hc Hn Hs).
  eexists; split; [reflexivity|]. by simpl.
Qed.

Lemma kv_empty_key_is_malformed_key_witness :
  exists st',
    KeyValuePairFileLoader.lineParser make_conf_loader "=value" 4 empty_accum
      = Return st' /\
    errors st' =
      <["make.conf" := ["Malformed key at line: 5, key "]]> ∅ /\
    data st' = ∅ /\
    validated st' = [].
Proof.
  apply (kv_empty_key_is_malformed_key
           make_conf_loader "=value" 4 empty_accum "value").
  reflexivity.
Defined.

(** ** Key lists *)

Lemma keylist_repeated_key_is_not_a_list_of_token_lists :
  exists st1 st2,
    KeyListFileLoader.lineParser use_loader "k v1 v2" 0 empty_accum
      = Return st1 /\
    data st1 !! "k" = Some (VList [VStr "v1"; VStr "v2"]) /\
    KeyListFileLoader.lineParser use_loader "k v3" 1 st1 = Return st2 /\
    data st2 !! "k" <>
      Some (VList [VList [VStr "v1"; VStr "v2"]; VList [VStr "v3"]]).
Proof.
  eexists. eexists.
  split; [reflexivity|]. split; [reflexivity|]. split; [reflexivity|].
  vm_compute. discriminate.
Qed.

(** C3, as the code has it: a [KeyListFileLoader] without validator that
    parses ["k v1 v2"] and then ["k v3"] into a [data] with no entry for
    ["k"] has [data["k"] == ["v1", "v2"]] after the first line and
    [data["k"] == ["v1", "v2", ["v3"]]] after the second: the later token
    list is appended, as one element, to the flat token list of the first
    occurrence. *)
Theorem keylist_repeated_key_appends_token_list
    (filename : string) (n n' : nat) (st : accum) :
  data st !! "k" = None ->
  exists st1 st2,
    KeyListFileLoader.lineParser
      (KeyListFileLoader.init filename None) "k v1 v2" n st = Return st1 /\
    data st1 !! "k" = Some (VList [VStr "v1"; VStr "v2"]) /\
    KeyListFileLoader.lineParser
      (KeyListFileLoader.init filename None) "k v3" n' st1 = Return st2 /\
    data st2 !! "k" =
      Some (VList [VStr "v1"; VStr "v2"; VList [VStr "v3"]]) /\
    errors st2 = errors st.
Proof.
  intros Hnew. set (self := KeyListFileLoader.init filename None).
  assert (accumulate "k" ["v1"; "v2"] (asked self "k" st) =
          Return (set_data "k" (strs ["v1"; "v2"]) (asked self "k" st))) as H1.
  { unfold accumulate. simpl. by rewrite Hnew. }
  eexists. eexists. split.
  { rewrite (keylist_parse self "k v1 v2" n st "k" "v1" ["v2"]) by reflexivity.
    simpl. exact H1. }
  split; [apply lookup_insert_eq|]. split.
  { rewrite (keylist_parse self "k v3" n' _ "k" "v3" []) by reflexivity.
    simpl. unfold accumulate. simpl. rewrite lookup_insert_eq. reflexivity. }
  simpl. split; [apply lookup_insert_eq|reflexivity].
Qed.

Lemma keylist_repeated_key_appends_token_list_witness :
  exists st1 st2,
    KeyListFileLoader.lineParser
      (KeyListFileLoader.init "package.use" None) "k v1 v2" 0 empty_accum
      = Return st1 /\
    data st1 !! "k" = Some (VList [VStr "v1"; VStr "v2"]) /\
    KeyListFileLoader.lineParser
      (KeyListFileLoader.init "package.use" None) "k v3" 1 st1 = Return st2 /\
    data st2 !! "k" =
      Some (VList [VStr "v1"; VStr "v2"; VList [VStr "v3"]]) /\
    errors st2 = errors empty_accum.
Proof.
  apply (keylist_repeated_key_appends_token_list "package.use" 0 1 empty_accum).
  reflexivity.
Defined.

(** ** The enumerator *)

Section Enumerator.

(** The first statement of the loop body after the pruning evaluates
    [str.startswith('.')], a call that lacks its prefix argument. *)
Lemma walk_body_raises (root : string) (dirs files : list string) :
  walk_body root dirs files = Raise TypeError.
Proof. reflexivity. Qed.

Lemma walk_dir_raises (top : string) (entries : list (string * fsnode)) :
  walk top (Dir entries) = ([], Some TypeError).
Proof. reflexivity. Qed.

(** On any directory the generator ends with [TypeError] before its first
    [yield]. *)
Lemma RecursiveFileLoader_dir (fs : filesystem) (filename : string) :
  isdir fs filename = true ->
  RecursiveFileLoader fs filename = ([], Some TypeError).
Proof.
  unfold RecursiveFileLoader, isdir. intros H. rewrite H.
  destruct (fs !! filename) as [[lines|entries]|]; try discriminate.
  apply walk_dir_raises.
Qed.

(** Anything else is yielded as it is. *)
Lemma RecursiveFileLoader_other (fs : filesystem) (filename : string) :
  isdir fs filename = false ->
  RecursiveFileLoader fs filename = ([VStr filename], None).
Proof. unfold RecursiveFileLoader. by intros ->. Qed.

(** So [FileLoader.load] on a directory raises, whatever the class. *)
Lemma load_dir_raises (self : FileLoader) (fs : filesystem) :
  isdir fs (fname self) = true -> FileLoader.load self fs = Raise TypeError.
Proof.
  intros H. unfold FileLoader.load.
  by rewrite (RecursiveFileLoader_dir fs (fname self) H).
Qed.

End Enumerator.

(** C1: on the directory [env_dir], whose entries are the files [.hidden],
    [backup~] and [real.conf], [RecursiveFileLoader] yields nothing and ends
    with [TypeError]; [real.conf] is not among the paths it yields. *)
Theorem RecursiveFileLoader_on_directory_yields_nothing :
  isdir env_dir "/etc/portage/env" = true /\
  RecursiveFileLoader env_dir "/etc/portage/env" = ([], Some TypeError) /\
  VStr "real.conf" ∉ (RecursiveFileLoader env_dir "/etc/portage/env").1.
Proof.
  split; [reflexivity|].
  rewrite (RecursiveFileLoader_dir env_dir "/etc/portage/env") by reflexivity.
  split; [reflexivity|]. simpl. apply not_elem_of_nil.
Qed.

(** ** EnvLoader *)

Lemma EnvLoader_load_not_a_pair (environ : gmap string string) (d e : pyval) :
  EnvLoader.load environ <> Return (VTuple [d; e]).
Proof. unfold EnvLoader.load. discriminate. Qed.

(** C2: [EnvLoader.load] returns the environment mapping itself, here for
    an environment with the single variable [HOME], and not a pair of that
    mapping and an empty error collection. *)
Theorem EnvLoader_load_returns_environ_alone :
  EnvLoader.load {[ "HOME" := "/root" ]} =
    Return (VDict {[ "HOME" := VStr "/root" ]}) /\
  EnvLoader.load {[ "HOME" := "/root" ]} <>
    Return (VTuple [VDict {[ "HOME" := VStr "/root" ]}; VDict ∅]).
Proof.
  split; [|apply EnvLoader_load_not_a_pair].
  unfold EnvLoader.load. by rewrite map_fmap_singleton.
Qed.

(** ** TestTextLoader *)

(** C9: [setData] with an argument that is not a dict raises [ValueError]
    and leaves the instance, hence what [load()] returns, as it was; and
    [load()] on a fresh instance returns the pair of two empty dicts. *)
Theorem TestTextLoader_setData_rejects_non_dict_and_fresh_load_is_empty
    (validator : option (string -> bool)) (self : TestTextLoader.t)
    (text : pyval) :
  (forall d, text <> VDict d) ->
  TestTextLoader.setData self text = (self, Raise ValueError) /\
  TestTextLoader.load (TestTextLoader.setData self text).1 =
    TestTextLoader.load self /\
  TestTextLoader.load (TestTextLoader.init validator) =
    Return (VTuple [VDict ∅; VDict ∅]).
Proof.
  intros Hnd.
  assert (TestTextLoader.setData self text = (self, Raise ValueError)) as H.
  { destruct text; try reflexivity. by destruct (Hnd d). }
  rewrite H. repeat split.
Qed.

Lemma TestTextLoader_setData_rejects_non_dict_and_fresh_load_is_empty_witness :
  TestTextLoader.data text_loader = held_data /\
  TestTextLoader.setData text_loader (VStr "not a dict")
    = (text_loader, Raise ValueError) /\
  TestTextLoader.load (TestTextLoader.setData text_loader (VStr "not a dict")).1
    = TestTextLoader.load text_loader /\
  TestTextLoader.load (TestTextLoader.init None) =
    Return (VTuple [VDict ∅; VDict ∅]).
Proof.
  split; [reflexivity|].
  apply (TestTextLoader_setData_rejects_non_dict_and_fresh_load_is_empty
           None text_loader (VStr "not a dict")).
  intros d; discriminate.
Defined.

(** ** Where errors are recorded *)

Section ErrorKey.

Variable self : FileLoader.

Lemma accumulate_errors (key : string) (value : list string) (st st' : accum) :
  accumulate key value st = Return st' -> errors st' = errors st.
Proof.
  unfold accumulate.
  destruct (data st !! key) as [[]|]; intros H; by simplify_eq.
Qed.

Ltac close_step :=
  first [ by left | right; eexists; reflexivity ].

Lemma item_errors_step (line : string) (n : nat) (st st' : accum) :
  ItemFileLoader.lineParser self line n st = Return st' ->
  errors_step (fname self) st st'.
Proof.
  unfold ItemFileLoader.lineParser, item; cbv zeta.
  destruct (Str.startswith _ _); [intros [= <-]; close_step|].
  destruct (Str.len _ =? 0)%nat; [intros [= <-]; close_step|].
  destruct (Str.split _) as [|key rest]; simpl; [intros [= <-]; close_step|].
  destruct (_validate self key); simpl; intros [= <-]; close_step.
Qed.

Lemma keylist_errors_step (line : string) (n : nat) (st st' : accum) :
  KeyListFileLoader.lineParser self line n st = Return st' ->
  errors_step (fname self) st st'.
Proof.
  unfold KeyListFileLoader.lineParser, item; cbv zeta.
  destruct (Str.startswith _ _); [intros [= <-]; close_step|].
  destruct (Str.len _ =? 0)%nat; [intros [= <-]; close_step|].
  destruct (Str.split _) as [|key [|v vs]]; simpl;
    [intros [= <-]; close_step..|].
  destruct (_validate self key); simpl; [|intros [= <-]; close_step].
  intros H. left. by rewrite (accumulate_errors _ _ _ _ H).
Qed.

Lemma kv_errors_step (line : string) (n : nat) (st st' : accum) :
  KeyValuePairFileLoader.lineParser self line n st = Return st' ->
  errors_step (fname self) st st'.
Proof.
  unfold KeyValuePairFileLoader.lineParser, item; cbv zeta.
  destruct (Str.startswith _ _); [intros [= <-]; close_step|].
  destruct (Str.len _ =? 0)%nat; [intros [= <-]; close_step|].
  destruct (Str.split_on _ _) as [|key [|v vs]]; simpl;
    [intros [= <-]; close_step..|].
  destruct (Str.len key =? 0)%nat; [intros [= <-]; close_step|].
  destruct (_validate self key); simpl; [|intros [= <-]; close_step].
  intros H. left. by rewrite (accumulate_errors _ _ _ _ H).
Qed.

Lemma lineParser_errors_step (line : string) (n : nat) (st st' : accum) :
  lineParser self line n st = Return st' -> errors_step (fname self) st st'.
Proof.
  unfold lineParser. destruct (class_of self).
  - discriminate.
  - apply item_errors_step.
  - apply keylist_errors_step.
  - apply kv_errors_step.
Qed.

(** One step leaves what is stored under every other key alone. *)
Lemma errors_step_frame (st st' : accum) (source : string) :
  errors_step (fname self) st st' -> source <> fname self ->
  errors st' !! source = errors st !! source.
Proof.
  intros [->| [msg ->]] Hne; [done|]. by rewrite lookup_insert_ne.
Qed.

Lemma parse_lines_frame (lines : list string) (n : nat) (st st' : accum)
    (source : string) :
  parse_lines (lineParser self) lines n st = Return st' ->
  source <> fname self ->
  errors st' !! source = errors st !! source.
Proof.
  revert n st; induction lines as [|line lines IH]; intros n st; simpl.
  - by intros [= <-].
  - destruct (lineParser self line n st) as [st1|e] eqn:H1; [|discriminate].
    simpl. intros Hrest Hne. rewrite (IH _ _ Hrest Hne).
    by apply errors_step_frame, Hne; apply (lineParser_errors_step line n).
Qed.

Lemma parse_files_frame (fs : filesystem) (fns : list pyval)
    (st st' : accum) (source : string) :
  parse_files (lineParser self) fs fns st = Return st' ->
  source <> fname self ->
  errors st' !! source = errors st !! source.
Proof.
  revert st; induction fns as [|fn fns IH]; intros st; simpl.
  - by intros [= <-].
  - destruct (open_rb fs fn) as [f|e]; [|discriminate]. simpl.
    destruct (parse_lines (lineParser self) f 0 st) as [st1|e] eqn:H1;
      [|discriminate].
    simpl. intros Hrest Hne. rewrite (IH _ Hrest Hne).
    by apply (parse_lines_frame f 0).
Qed.

Lemma load_frame (fs : filesystem) (st' : accum) (source : string) :
  FileLoader.load self fs = Return st' ->
  source <> fname self ->
  errors st' !! source = None.
Proof.
  unfold FileLoader.load.
  destruct (RecursiveFileLoader fs (fname self)) as [fns stop].
  destruct (parse_files (lineParser self) fs fns empty_accum) as [st1|e] eqn:H;
    [|discriminate].
  simpl. destruct stop; [discriminate|]. intros [= <-] Hne.
  by rewrite (parse_files_frame fs fns empty_accum st1 source H Hne).
Qed.

End ErrorKey.

(** C8: every parse error of the three line parsers goes under the one key
    [self.fname].  A [lineParser] call leaves the error collection as it
    was or appends one message to the list under [fname self]; so the loop
    of [load()] over the files it reads, whatever their own paths are,
    changes no other key, and the error collection that [load()] returns has
    no other key. *)
Theorem parse_errors_are_keyed_by_fname (self : FileLoader) :
  (forall line n st st',
     lineParser self line n st = Return st' ->
     errors_step (fname self) st st') /\
  (forall fs fns st st' source,
     parse_files (lineParser self) fs fns st = Return st' ->
     source <> fname self ->
     errors st' !! source = errors st !! source) /\
  (forall fs st' source,
     FileLoader.load self fs = Return st' ->
     source <> fname self ->
     errors st' !! source = None).
Proof.
  split; [|split].
  - intros line n st st'. apply lineParser_errors_step.
  - intros fs fns st st' source. apply parse_files_frame.
  - intros fs st' source. apply load_frame.
Qed.

Lemma parse_errors_are_keyed_by_fname_witness :
  exists st',
    parse_files (lineParser conf_d_loader) conf_d conf_d_files empty_accum
      = Return st' /\
    errors st' !! "conf.d" =
      Some ["Malformed data at line: 1, data: one";
            "Malformed data at line: 2, data: two"] /\
    errors st' !! "conf.d/a" = None /\
    errors st' !! "conf.d/b" = None.
Proof.
  destruct (parse_errors_are_keyed_by_fname conf_d_loader) as (_ & Hframe & _).
  destruct (parse_files (lineParser conf_d_loader) conf_d conf_d_files
              empty_accum) as [st'|e] eqn:Hrun; [|discriminate Hrun].
  exists st'. split; [reflexivity|]. split.
  - injection Hrun as <-. reflexivity.
  - split.
    + apply (Hframe conf_d conf_d_files empty_accum st' "conf.d/a" Hrun).
      discriminate.
    + apply (Hframe conf_d conf_d_files empty_accum st' "conf.d/b" Hrun).
      discriminate.
Defined.

(** ** Loading a regular file never raises *)

Section Totality.

Variable self : FileLoader.

Lemma lists_only_asked (key : string) (st : accum) :
  lists_only st -> lists_only (asked self key st).
Proof. done. Qed.

Lemma lists_only_append_error (source msg : string) (st : accum) :
  lists_only st -> lists_only (append_error source msg st).
Proof. done. Qed.

Lemma accumulate_returns (key : string) (value : list string) (st : accum) :
  lists_only st ->
  exists st', accumulate key value st = Return st' /\ lists_only st'.
Proof.
  intros Hl. unfold accumulate.
  destruct (data st !! key) as [v|] eqn:Hk.
  - destruct (Hl key v Hk) as [l ->]. eexists; split; [reflexivity|].
    intros k w. simpl. destruct (decide (k = key)) as [->|Hne].
    + rewrite lookup_insert_eq. intros [= <-]. eauto.
    + rewrite lookup_insert_ne by done. apply Hl.
  - eexists; split; [reflexivity|].
    intros k w. simpl. destruct (decide (k = key)) as [->|Hne].
    + rewrite lookup_insert_eq. intros [= <-]. unfold strs. eauto.
    + rewrite lookup_insert_ne by done. apply Hl.
Qed.

Lemma item_returns (line : string) (n : nat) (st : accum) :
  exists st', ItemFileLoader.lineParser self line n st = Return st'.
Proof.
  unfold ItemFileLoader.lineParser, item; cbv zeta.
  destruct (Str.startswith _ _); [eauto|].
  destruct (Str.len _ =? 0)%nat; [eauto|].
  destruct (Str.split _) as [|key rest]; simpl; [eauto|].
  destruct (_validate self key); simpl; eauto.
Qed.

Lemma keylist_returns (line : string) (n : nat) (st : accum) :
  lists_only st ->
  exists st',
    KeyListFileLoader.lineParser self line n st = Return st' /\ lists_only st'.
Proof.
  intros Hl. unfold KeyListFileLoader.lineParser, item; cbv zeta.
  destruct (Str.startswith _ _); [eauto|].
  destruct (Str.len _ =? 0)%nat; [eauto|].
  destruct (Str.split _) as [|key [|v vs]]; simpl; [eauto..|].
  destruct (_validate self key); simpl; [|eauto].
  by apply accumulate_returns.
Qed.

Lemma kv_returns (line : string) (n : nat) (st : accum) :
  lists_only st ->
  exists st',
    KeyValuePairFileLoader.lineParser self line n st = Return st' /\
    lists_only st'.
Proof.
  intros Hl. unfold KeyValuePairFileLoader.lineParser, item; cbv zeta.
  destruct (Str.startswith _ _); [eauto|].
  destruct (Str.len _ =? 0)%nat; [eauto|].
  destruct (Str.split_on _ _) as [|key [|v vs]]; simpl; [eauto..|].
  destruct (Str.len key =? 0)%nat; [eauto|].
  destruct (_validate self key); simpl; [|eauto].
  by apply accumulate_returns.
Qed.

Lemma lineParser_returns (line : string) (n : nat) (st : accum) :
  sound self st ->
  exists st', lineParser self line n st = Return st' /\ sound self st'.
Proof.
  unfold sound, lineParser. destruct (class_of self); intros H.
  - destruct H.
  - destruct (item_returns line n st) as [st' Hst']. eauto.
  - by apply keylist_returns.
  - by apply kv_returns.
Qed.

Lemma parse_lines_returns (lines : list string) (n : nat) (st : accum) :
  sound self st ->
  exists st',
    parse_lines (lineParser self) lines n st = Return st' /\ sound self st'.
Proof.
  revert n st; induction lines as [|line lines IH]; intros n st Hs; simpl.
  - eauto.
  - destruct (lineParser_returns line n st Hs) as (st1 & -> & Hs1).
    simpl. by apply IH.
Qed.

(** With a class that has a parser and a path that names a regular file,
    [load()] returns: no line makes a parser raise. *)
Lemma load_file_returns (fs : filesystem) (lines : list string) :
  class_of self <> FileLoader_class ->
  fs !! fname self = Some (File lines) ->
  exists st',
    FileLoader.load self fs = Return st' /\
    parse_lines (lineParser self) lines 0 empty_accum = Return st'.
Proof.
  intros Hcls Hfile.
  assert (sound self empty_accum) as Hs0.
  { unfold sound. destruct (class_of self); try done; by intros k v. }
  destruct (parse_lines_returns lines 0 empty_accum Hs0) as (st' & Hrun & _).
  exists st'. split; [|exact Hrun].
  unfold FileLoader.load.
  rewrite RecursiveFileLoader_other by (unfold isdir; by rewrite Hfile).
  simpl. rewrite Hfile. simpl. by rewrite Hrun.
Qed.

End Totality.


(** * Further properties *)

(** ** What [load()] does with its path *)

(** X1: when the configured path names nothing, [load()] raises [IOError],
    whatever the class: the enumerator yields the path unchecked and
    [open] fails; the failure is not recorded in the error collection. *)
Theorem load_missing_path_raises_IOError (self : FileLoader) (fs : filesystem) :
  fs !! fname self = None ->
  RecursiveFileLoader fs (fname self) = ([VStr (fname self)], None) /\
  FileLoader.load self fs = Raise IOError.
Proof.
  intros Hnone.
  assert (RecursiveFileLoader fs (fname self) = ([VStr (fname self)], None))
    as Henum.
  { apply RecursiveFileLoader_other. unfold isdir. by rewrite Hnone. }
  split; [exact Henum|].
  unfold FileLoader.load. rewrite Henum. simpl. by rewrite Hnone.
Qed.

Lemma load_missing_path_raises_IOError_witness :
  RecursiveFileLoader mask_fs "make.conf" = ([VStr "make.conf"], None) /\
  FileLoader.load kv_loader mask_fs = Raise IOError.
Proof.
  apply (load_missing_path_raises_IOError kv_loader mask_fs). reflexivity.
Defined.

(** X2: when the configured path is a directory, [load()] raises
    [TypeError], whatever the class and whatever the directory holds: the
    enumerator fails before it yields a path, so no file is opened. *)
Theorem load_directory_raises_TypeError (self : FileLoader) (fs : filesystem) :
  isdir fs (fname self) = true ->
  FileLoader.load self fs = Raise TypeError.
Proof. apply load_dir_raises. Qed.

Lemma load_directory_raises_TypeError_witness :
  FileLoader.load (ItemFileLoader.init "/etc/portage/env" None) env_dir
    = Raise TypeError.
Proof.
  apply (load_directory_raises_TypeError
           (ItemFileLoader.init "/etc/portage/env" None) env_dir).
  reflexivity.
Defined.

(** X3: for the three concrete classes, [load()] on a regular file always
    returns: it is the run of the class's line parser over the lines of that
    file, numbered from 0, from an empty [data] and an empty [errors]. *)
Theorem load_regular_file_returns
    (self : FileLoader) (fs : filesystem) (lines : list string) :
  class_of self <> FileLoader_class ->
  fs !! fname self = Some (File lines) ->
  exists st',
    FileLoader.load self fs = Return st' /\
    parse_lines (lineParser self) lines 0 empty_accum = Return st'.
Proof. apply load_file_returns. Qed.

Lemma load_regular_file_returns_witness :
  exists st',
    FileLoader.load mask_loader mask_fs = Return st' /\
    parse_lines (lineParser mask_loader)
      ["# masked" +:+ nl; "sys-apps/portage extra" +:+ nl; nl;
       "app-misc/foo" +:+ nl; "sys-apps/portage" +:+ nl] 0 empty_accum
      = Return st'.
Proof.
  apply (load_regular_file_returns mask_loader mask_fs);
    [discriminate|reflexivity].
Defined.

(** X4: an instance of the base class [FileLoader] has no line parser: its
    [load()] returns empty [data] and [errors] on an empty file, and raises
    [NotImplementedError] on a file with at least one line. *)
Theorem base_FileLoader_load
    (self : FileLoader) (fs : filesystem) (lines : list string) :
  class_of self = FileLoader_class ->
  fs !! fname self = Some (File lines) ->
  FileLoader.load self fs =
    match lines with
    | [] => Return empty_accum
    | _ :: _ => Raise NotImplementedError
    end.
Proof.
  intros Hcls Hfile. unfold FileLoader.load.
  rewrite RecursiveFileLoader_other by (unfold isdir; by rewrite Hfile).
  simpl. rewrite Hfile. simpl.
  destruct lines as [|line lines]; [reflexivity|].
  simpl. unfold lineParser. by rewrite Hcls.
Qed.

Lemma base_FileLoader_load_witness :
  FileLoader.load base_loader mask_fs = Raise NotImplementedError /\
  FileLoader.load (FileLoaderBase.init "empty" None) mask_fs
    = Return empty_accum.
Proof.
  split.
  - apply (base_FileLoader_load base_loader mask_fs ["anything" +:+ nl]);
      reflexivity.
  - apply (base_FileLoader_load (FileLoaderBase.init "empty" None) mask_fs []);
      reflexivity.
Defined.

(** ** Lines that are rejected *)

Lemma split_on_none (sep : ascii) (s : string) :
  Str.contains sep s = false -> Str.split_on sep s = [s].
Proof.
  induction s as [|c s IH]; simpl; [done|].
  intros H. apply orb_false_elim in H as [Hc Hs].
  by rewrite Hc, (IH Hs).
Qed.

Lemma rejected_append_error (source msg : string) (st : accum) :
  rejected source msg [] st (append_error source msg st).
Proof. unfold rejected. simpl. by rewrite app_nil_r. Qed.

Lemma rejected_after_asking (self : FileLoader) (msg key : string) (st : accum) :
  rejected (fname self) msg [key] st
    (append_error (fname self) msg (asked self key st)).
Proof. by unfold rejected. Qed.

(** X5: in each of the three grammars, a line whose key the validator
    refuses adds the message "Validation failed at line: N, data KEY" under
    the loader's path, with N the line index plus one, leaves [data] as it
    was, and has called the validator once, with that key. *)
Theorem refused_key_is_reported_and_not_stored
    (self : FileLoader) (line : string) (n : nat) (st : accum) (key : string) :
  Str.startswith (Str.strip line) "#" = false ->
  _validate self key = false ->
  let msg := "Validation failed at line: " +:+ fmt_int (n + 1)
               +:+ ", data " +:+ key in
  (forall rest,
     Str.split (Str.strip line) = key :: rest ->
     exists st',
       ItemFileLoader.lineParser self line n st = Return st' /\
       rejected (fname self) msg [key] st st') /\
  (forall v vs,
     Str.split (Str.strip line) = key :: v :: vs ->
     exists st',
       KeyListFileLoader.lineParser self line n st = Return st' /\
       rejected (fname self) msg [key] st st') /\
  (forall v vs,
     key <> "" ->
     Str.split_on "=" (Str.strip line) = key :: v :: vs ->
     exists st',
       KeyValuePairFileLoader.lineParser self line n st = Return st' /\
       rejected (fname self) msg [key] st st').
Proof.
  intros Hc Hv msg. split; [|split].
  - intros rest Hs. rewrite (item_parse self line n st key rest Hc Hs), Hv.
    eexists; split; [reflexivity|apply rejected_after_asking].
  - intros v vs Hs. rewrite (keylist_parse self line n st key v vs Hc Hs), Hv.
    eexists; split; [reflexivity|apply rejected_after_asking].
  - intros v vs Hk Hs. rewrite (kv_parse self line n st key v vs Hc Hk Hs), Hv.
    eexists; split; [reflexivity|apply rejected_after_asking].
Qed.

Lemma refused_key_is_reported_and_not_stored_witness :
  exists st',
    KeyListFileLoader.lineParser atom_loader "portage build" 2 empty_accum
      = Return st' /\
    rejected "package.use" "Validation failed at line: 3, data portage"
      ["portage"] empty_accum st'.
Proof.
  destruct (refused_key_is_reported_and_not_stored
              atom_loader "portage build" 2 empty_accum "portage")
    as (_ & Hkl & _); [reflexivity|reflexivity|].
  apply (Hkl "build" []). reflexivity.
Defined.

(** X6: a key-list line with a single token, a key without any value, adds
    "Malformed data at line: N, data: LINE" with the trimmed line, stores
    nothing, and does not call the validator. *)
Theorem keylist_line_without_value_is_malformed
    (self : FileLoader) (line : string) (n : nat) (st : accum) (key : string) :
  Str.startswith (Str.strip line) "#" = false ->
  Str.split (Str.strip line) = [key] ->
  exists st',
    KeyListFileLoader.lineParser self line n st = Return st' /\
    rejected (fname self)
      ("Malformed data at line: " +:+ fmt_int (n + 1) +:+ ", data: "
         +:+ Str.strip line) [] st st'.
Proof.
  intros Hc Hs. rewrite (keylist_short self line n st key Hc Hs).
  eexists; split; [reflexivity|apply rejected_append_error].
Qed.

Lemma keylist_line_without_value_is_malformed_witness :
  exists st',
    KeyListFileLoader.lineParser use_loader ("  lonely " +:+ nl) 1 empty_accum
      = Return st' /\
    rejected "package.use" "Malformed data at line: 2, data: lonely" []
      empty_accum st'.
Proof.
  apply (keylist_line_without_value_is_malformed
           use_loader ("  lonely " +:+ nl) 1 empty_accum "lonely");
    reflexivity.
Defined.

(** X7: a key=value line that is neither blank nor a comment and has no
    [=] adds "Malformed data at line: N, data LINE" with the trimmed line,
    stores nothing, and does not call the validator. *)
Theorem kv_line_without_separator_is_malformed
    (self : FileLoader) (line : string) (n : nat) (st : accum) :
  Str.startswith (Str.strip line) "#" = false ->
  Str.strip line <> "" ->
  Str.contains "=" (Str.strip line) = false ->
  exists st',
    KeyValuePairFileLoader.lineParser self line n st = Return st' /\
    rejected (fname self)
      ("Malformed data at line: " +:+ fmt_int (n + 1) +:+ ", data "
         +:+ Str.strip line) [] st st'.
Proof.
  intros Hc Hn Hsep.
  rewrite (kv_short self line n st (Str.strip line) Hc Hn
             (split_on_none "=" _ Hsep)).
  eexists; split; [reflexivity|apply rejected_append_error].
Qed.

Lemma kv_line_without_separator_is_malformed_witness :
  exists st',
    KeyValuePairFileLoader.lineParser kv_loader ("no separator" +:+ nl) 1
      empty_accum = Return st' /\
    rejected "make.conf" "Malformed data at line: 2, data no separator" []
      empty_accum st'.
Proof.
  apply (kv_line_without_separator_is_malformed
           kv_loader ("no separator" +:+ nl) 1 empty_accum);
    [reflexivity|discriminate|reflexivity].
Defined.

(** X8: the item parser looks at the first token only: two lines with the
    same first token, at the same line index, have the same effect. *)
Theorem item_parser_ignores_later_tokens
    (self : FileLoader) (line line' : string) (n : nat) (st : accum)
    (key : string) (rest rest' : list string) :
  Str.startswith (Str.strip line) "#" = false ->
  Str.split (Str.strip line) = key :: rest ->
  Str.startswith (Str.strip line') "#" = false ->
  Str.split (Str.strip line') = key :: rest' ->
  ItemFileLoader.lineParser self line n st =
    ItemFileLoader.lineParser self line' n st.
Proof.
  intros Hc Hs Hc' Hs'.
  by rewrite (item_parse self line n st key rest Hc Hs),
             (item_parse self line' n st key rest' Hc' Hs').
Qed.

Lemma item_parser_ignores_later_tokens_witness :
  ItemFileLoader.lineParser strict_mask_loader "sys-apps/portage extra" 1
    empty_accum =
  ItemFileLoader.lineParser strict_mask_loader (" sys-apps/portage" +:+ nl) 1
    empty_accum.
Proof.
  apply (item_parser_ignores_later_tokens strict_mask_loader
           "sys-apps/portage extra" (" sys-apps/portage" +:+ nl) 1 empty_accum
           "sys-apps/portage" ["extra"] []); reflexivity.
Defined.

(** X9: in the key-list and key=value grammars, an accepted line whose key
    is already in [data] with a value that is not a list makes the parser
    raise [AttributeError]: only a list can take the [append]. *)
Theorem accepted_line_on_non_list_value_raises
    (self : FileLoader) (line : string) (n : nat) (st : accum)
    (key v : string) (vs : list string) (held : pyval) :
  Str.startswith (Str.strip line) "#" = false ->
  _validate self key = true ->
  data st !! key = Some held ->
  (forall l, held <> VList l) ->
  (Str.split (Str.strip line) = key :: v :: vs ->
   KeyListFileLoader.lineParser self line n st = Raise AttributeError) /\
  (key <> "" ->
   Str.split_on "=" (Str.strip line) = key :: v :: vs ->
   KeyValuePairFileLoader.lineParser self line n st = Raise AttributeError).
Proof.
  intros Hc Hv Hheld Hnl.
  assert (accumulate key (v :: vs) (asked self key st) = Raise AttributeError)
    as Hacc.
  { unfold accumulate. simpl. rewrite Hheld.
    destruct held; try reflexivity. by destruct (Hnl l). }
  split.
  - intros Hs. by rewrite (keylist_parse self line n st key v vs Hc Hs), Hv.
  - intros Hk Hs. by rewrite (kv_parse self line n st key v vs Hc Hk Hs), Hv.
Qed.

Lemma accepted_line_on_non_list_value_raises_witness :
  exists st1,
    ItemFileLoader.lineParser mask_loader "k" 0 empty_accum = Return st1 /\
    KeyListFileLoader.lineParser use_loader "k v1 v2" 1 st1
      = Raise AttributeError /\
    KeyValuePairFileLoader.lineParser kv_loader "k=v" 1 st1
      = Raise AttributeError.
Proof.
  eexists. split; [reflexivity|]. split.
  - apply (accepted_line_on_non_list_value_raises
             use_loader "k v1 v2" 1 _ "k" "v1" ["v2"] VNone);
      [reflexivity|reflexivity|reflexivity|discriminate|reflexivity].
  - apply (accepted_line_on_non_list_value_raises
             kv_loader "k=v" 1 _ "k" "v" [] VNone);
      [reflexivity|reflexivity|reflexivity|discriminate|discriminate|reflexivity].
Defined.

(** ** Every effect of a line *)

Section Effects.

(** A string starts with what it was built from. *)
Lemma startswith_own_prefix (p s : string) : Str.startswith (p +:+ s) p = true.
Proof.
  unfold Str.startswith. induction p as [|a p IH]; [apply prefix_empty|].
  change (String.prefix (String a p) (String a p +:+ s))
    with (if ascii_dec a a then String.prefix p (p +:+ s) else false).
  by destruct (ascii_dec a a).
Qed.

Lemma has_space_app (s t : string) :
  has_space (s +:+ t) = has_space s || has_space t.
Proof.
  induction s as [|c s IH]; simpl; [done|]. by rewrite IH, orb_assoc.
Qed.

Lemma token_start (c : ascii) : Str.isspace c = false -> token (String c "").
Proof. intros H. split; [done|]. simpl. by rewrite H. Qed.

Lemma token_extend (w : string) (c : ascii) :
  token w -> Str.isspace c = false -> token (w +:+ String c "").
Proof.
  intros [Hn Hs] Hc. split.
  - by destruct w.
  - rewrite has_space_app, Hs. simpl. by rewrite Hc.
Qed.

Lemma split_go_tokens (cur : option string) (s : string) :
  (forall w, cur = Some w -> token w) -> Forall token (Str.split_go cur s).
Proof.
  revert cur; induction s as [|c s IH]; intros cur Hcur; simpl.
  - destruct cur as [w|]; simpl; [|done]. constructor; [by apply Hcur|done].
  - destruct (Str.isspace c) eqn:Hc.
    + apply Forall_app. split; [|by apply IH].
      destruct cur as [w|]; simpl; [|done]. constructor; [by apply Hcur|done].
    + apply IH. intros w [= <-]. destruct cur as [w'|]; simpl.
      * apply token_extend; [by apply Hcur|done].
      * by apply token_start.
Qed.

(** What [split()] returns are tokens. *)
Lemma split_tokens (s : string) : Forall token (Str.split s).
Proof. by apply split_go_tokens. Qed.

Lemma split_first_token (s key : string) (rest : list string) :
  Str.split s = key :: rest -> token key.
Proof.
  intros H. pose proof (split_tokens s) as Hall. rewrite H in Hall.
  by apply Forall_cons in Hall as [? _].
Qed.

(** The first segment of [split(sep)] has no separator. *)
Lemma split_on_head (sep : ascii) (s key : string) (rest : list string) :
  Str.split_on sep s = key :: rest -> Str.contains sep key = false.
Proof.
  revert key rest; induction s as [|c s IH]; intros key rest; simpl.
  - by intros [= <- _].
  - destruct (Ascii.eqb c sep) eqn:Hc; [by intros [= <- _]|].
    destruct (Str.split_on sep s) as [|seg segs] eqn:Hs.
    + intros [= <- _]. simpl. by rewrite Hc.
    + intros [= <- _]. simpl. by rewrite Hc, (IH seg segs).
Qed.

Variable self : FileLoader.

Lemma accumulate_stored (cls : klass) (key : string) (value : list string)
    (st st' : accum) :
  cls <> ItemFileLoader_class ->
  value <> [] ->
  accumulate key value (asked self key st) = Return st' ->
  exists v, stored cls st key v /\ st' = set_data key v (asked self key st).
Proof.
  intros Hcls Hval. unfold accumulate. simpl.
  destruct (data st !! key) as [held|] eqn:Hheld.
  - destruct held; try discriminate. intros [= <-].
    eexists; split; [|reflexivity].
    destruct cls; try done; exists value; eauto.
  - intros [= <-]. eexists; split; [|reflexivity].
    destruct cls; try done; exists value; eauto.
Qed.

Lemma item_effect (line : string) (n : nat) (st st' : accum) :
  class_of self = ItemFileLoader_class ->
  ItemFileLoader.lineParser self line n st = Return st' ->
  effect self line n st st'.
Proof.
  intros Hcls.
  destruct (Str.startswith (Str.strip line) "#") eqn:Hc.
  { rewrite item_skip by by left. intros [= <-]. apply effect_skip. by left. }
  destruct (Str.split (Str.strip line)) as [|key rest] eqn:Hs.
  { destruct (Str.strip line) as [|c r] eqn:E.
    - rewrite item_skip by by right. intros [= <-]. apply effect_skip. by right.
    - exfalso. apply (split_strip_nonempty line); rewrite E; [done|exact Hs]. }
  assert (line_key (class_of self) line = key) as Hkey.
  { rewrite Hcls. unfold line_key. by rewrite Hs. }
  rewrite (item_parse self line n st key rest Hc Hs).
  destruct (_validate self key) eqn:Hv; intros [= <-].
  - apply effect_stored; try done; rewrite Hcls; simpl; [|done].
    by apply (split_first_token _ _ _ Hs).
  - by apply effect_refused.
Qed.

Lemma keylist_effect (line : string) (n : nat) (st st' : accum) :
  class_of self = KeyListFileLoader_class ->
  KeyListFileLoader.lineParser self line n st = Return st' ->
  effect self line n st st'.
Proof.
  intros Hcls.
  destruct (Str.startswith (Str.strip line) "#") eqn:Hc.
  { rewrite keylist_skip by by left. intros [= <-]. apply effect_skip. by left. }
  destruct (Str.split (Str.strip line)) as [|key [|v vs]] eqn:Hs.
  - destruct (Str.strip line) as [|c r] eqn:E.
    + rewrite keylist_skip by by right.
      intros [= <-]. apply effect_skip. by right.
    + exfalso. apply (split_strip_nonempty line); rewrite E; [done|exact Hs].
  - rewrite (keylist_short self line n st key Hc Hs). intros [= <-].
    apply effect_malformed. left. apply startswith_own_prefix.
  - assert (line_key (class_of self) line = key) as Hkey.
    { rewrite Hcls. unfold line_key. by rewrite Hs. }
    rewrite (keylist_parse self line n st key v vs Hc Hs).
    destruct (_validate self key) eqn:Hv.
    + intros Hacc.
      destruct (accumulate_stored (class_of self) key (v :: vs) st st')
        as (w & Hw & ->); [by rewrite Hcls|done|exact Hacc|].
      apply effect_stored; try done. rewrite Hcls. simpl.
      by apply (split_first_token _ _ _ Hs).
    + intros [= <-]. by apply effect_refused.
Qed.

Lemma kv_effect (line : string) (n : nat) (st st' : accum) :
  class_of self = KeyValuePairFileLoader_class ->
  KeyValuePairFileLoader.lineParser self line n st = Return st' ->
  effect self line n st st'.
Proof.
  intros Hcls.
  destruct (Str.startswith (Str.strip line) "#") eqn:Hc.
  { rewrite kv_skip by by left. intros [= <-]. apply effect_skip. by left. }
  destruct (Str.strip line) as [|c r] eqn:E.
  { rewrite kv_skip by by right. intros [= <-]. apply effect_skip. by right. }
  assert (Str.strip line <> "") as Hn by by rewrite E.
  rewrite <- E in Hc.
  destruct (Str.split_on "=" (Str.strip line)) as [|key [|v vs]] eqn:Hs.
  - by destruct (split_on_nonempty "=" (Str.strip line)).
  - rewrite (kv_short self line n st key Hc Hn Hs). intros [= <-].
    apply effect_malformed. left. apply startswith_own_prefix.
  - destruct key as [|k key].
    { rewrite (kv_no_key self line n st v vs Hc Hn Hs). intros [= <-].
      apply effect_malformed. right. apply startswith_own_prefix. }
    assert (line_key (class_of self) line = String k key) as Hkey.
    { rewrite Hcls. unfold line_key. by rewrite Hs. }
    rewrite (kv_parse self line n st (String k key) v vs Hc) by done.
    destruct (_validate self (String k key)) eqn:Hv.
    + intros Hacc.
      destruct (accumulate_stored (class_of self) (String k key) (v :: vs)
                  st st') as (w & Hw & ->); [by rewrite Hcls|done|exact Hacc|].
      apply effect_stored; try done. rewrite Hcls. simpl.
      split; [done|]. by apply (split_on_head "=" _ _ _ Hs).
    + intros [= <-]. by apply effect_refused.
Qed.

(** A call of [self.lineParser] that returns has one of the four effects. *)
Lemma lineParser_effect (line : string) (n : nat) (st st' : accum) :
  lineParser self line n st = Return st' -> effect self line n st st'.
Proof.
  unfold lineParser. destruct (class_of self) eqn:Hcls.
  - discriminate.
  - by apply item_effect.
  - by apply keylist_effect.
  - by apply kv_effect.
Qed.

(** What every line keeps true, the whole [load()] keeps true. *)
Lemma parse_lines_invariant (P : accum -> Prop) (lines : list string)
    (n : nat) (st st' : accum) :
  (forall line m s s', P s -> effect self line m s s' -> P s') ->
  P st ->
  parse_lines (lineParser self) lines n st = Return st' ->
  P st'.
Proof.
  intros Hstep. revert n st; induction lines as [|line lines IH];
    intros n st HP; simpl.
  - by intros [= <-].
  - destruct (lineParser self line n st) as [st1|e] eqn:H1; [|discriminate].
    simpl. apply IH. apply (Hstep line n st st1 HP).
    by apply lineParser_effect.
Qed.

Lemma parse_files_invariant (P : accum -> Prop) (fs : filesystem)
    (fns : list pyval) (st st' : accum) :
  (forall line m s s', P s -> effect self line m s s' -> P s') ->
  P st ->
  parse_files (lineParser self) fs fns st = Return st' ->
  P st'.
Proof.
  intros Hstep. revert st; induction fns as [|fn fns IH]; intros st HP; simpl.
  - by intros [= <-].
  - destruct (open_rb fs fn) as [f|e]; [|discriminate]. simpl.
    destruct (parse_lines (lineParser self) f 0 st) as [st1|e] eqn:H1;
      [|discriminate].
    simpl. apply IH. by apply (parse_lines_invariant P f 0 st st1).
Qed.

Lemma load_invariant (P : accum -> Prop) (fs : filesystem) (st' : accum) :
  (forall line m s s', P s -> effect self line m s s' -> P s') ->
  P empty_accum ->
  FileLoader.load self fs = Return st' ->
  P st'.
Proof.
  intros Hstep H0. unfold FileLoader.load.
  destruct (RecursiveFileLoader fs (fname self)) as [fns stop].
  destruct (parse_files (lineParser self) fs fns empty_accum) as [st1|e] eqn:H;
    [|discriminate].
  simpl. destruct stop; [discriminate|]. intros [= <-].
  by apply (parse_files_invariant P fs fns empty_accum st1).
Qed.

End Effects.

(** ** What a load keeps true *)

Section Invariants.

Variable self : FileLoader.

Lemma effect_data (line : string) (n : nat) (st st' : accum) :
  effect self line n st st' ->
  data st' = data st \/
  exists key v,
    line_key (class_of self) line = key /\
    _validate self key = true /\
    good_key (class_of self) key /\
    stored (class_of self) st key v /\
    data st' = <[key := v]> (data st) /\
    validated st' = (validated st ++ [key])%list.
Proof.
  intros [Hskip|msg Hm|key Hk Hv|key v Hk Hv Hg Hs]; [by left..|].
  right. by exists key, v.
Qed.

Lemma effect_validated (line : string) (n : nat) (st st' : accum) :
  effect self line n st st' ->
  validated st' = validated st \/
  validated st' = (validated st ++ [line_key (class_of self) line])%list.
Proof.
  intros [Hskip|msg Hm|key Hk Hv|key v Hk Hv Hg Hs];
    [by left|by left|right; by rewrite Hk..].
Qed.

Lemma effect_errors (line : string) (n : nat) (st st' : accum) :
  effect self line n st st' ->
  errors st' = errors st \/
  exists msg,
    (malformed msg \/
     Str.startswith msg "Validation failed at line: " = true /\
     exists key, _validate self key = false) /\
    errors st' =
      <[fname self := (default [] (errors st !! fname self) ++ [msg])%list]>
        (errors st).
Proof.
  intros [Hskip|msg Hm|key Hk Hv|key v Hk Hv Hg Hs]; [by left| | |by left].
  - right. exists msg. split; [by left|done].
  - right. eexists. split; [|reflexivity].
    right. split; [apply startswith_own_prefix|by exists key].
Qed.

Lemma keys_are_step (Q : string -> Prop) (line : string) (n : nat)
    (st st' : accum) :
  (forall key, _validate self key = true ->
               good_key (class_of self) key -> Q key) ->
  keys_are Q st -> effect self line n st st' -> keys_are Q st'.
Proof.
  intros HQ Hst He key.
  destruct (effect_data line n st st' He)
    as [->|(k & v & _ & Hv & Hg & _ & -> & _)]; [apply Hst|].
  destruct (decide (key = k)) as [->|Hne]; [intros _; by apply HQ|].
  rewrite lookup_insert_ne by done. apply Hst.
Qed.

Lemma all_None_step (line : string) (n : nat) (st st' : accum) :
  class_of self = ItemFileLoader_class ->
  all_None st -> effect self line n st st' -> all_None st'.
Proof.
  intros Hcls Hst He key w.
  destruct (effect_data line n st st' He)
    as [->|(k & v & _ & _ & _ & Hs & -> & _)]; [apply Hst|].
  rewrite Hcls in Hs. simpl in Hs. subst v.
  destruct (decide (key = k)) as [->|Hne].
  - rewrite lookup_insert_eq. by intros [= <-].
  - rewrite lookup_insert_ne by done. apply Hst.
Qed.

Lemma parse_lines_errors (lines : list string) (n : nat) (st st' : accum) :
  parse_lines (lineParser self) lines n st = Return st' ->
  exists added,
    default [] (errors st' !! fname self) =
      (default [] (errors st !! fname self) ++ added)%list /\
    length added <= length lines /\
    Forall (fun msg =>
              malformed msg \/
              Str.startswith msg "Validation failed at line: " = true /\
              exists key, _validate self key = false) added.
Proof.
  revert n st; induction lines as [|line lines IH]; intros n st; simpl.
  - intros [= <-]. exists []. by rewrite app_nil_r.
  - destruct (lineParser self line n st) as [st1|e] eqn:H1; [|discriminate].
    simpl. intros Hrest. destruct (IH _ _ Hrest) as (added & Heq & Hlen & Hall).
    apply lineParser_effect, effect_errors in H1 as [H1|(msg & Hmsg & H1)].
    + exists added. rewrite Heq, H1. split; [done|]. split; [lia|done].
    + exists (msg :: added). rewrite Heq, H1, lookup_insert_eq. simpl.
      split; [by rewrite <- app_assoc|]. split; [lia|by constructor].
Qed.

End Invariants.

Lemma keys_are_empty (Q : string -> Prop) : keys_are Q empty_accum.
Proof. intros key [v Hv]. simpl in Hv. by rewrite lookup_empty in Hv. Qed.

(** X10: what an [ItemFileLoader] loads maps every key to [None]. *)
Theorem item_load_values_are_None
    (self : FileLoader) (fs : filesystem) (st' : accum) :
  class_of self = ItemFileLoader_class ->
  FileLoader.load self fs = Return st' ->
  all_None st'.
Proof.
  intros Hcls. apply (load_invariant self all_None).
  - intros line m s s' Hs. by apply all_None_step.
  - by intros key v.
Qed.

Lemma item_load_values_are_None_witness :
  exists st',
    FileLoader.load mask_loader mask_fs = Return st' /\
    data st' !! "sys-apps/portage" = Some VNone /\
    data st' !! "app-misc/foo" = Some VNone /\
    all_None st'.
Proof.
  destruct (FileLoader.load mask_loader mask_fs) as [st'|e] eqn:Hload;
    [|discriminate Hload].
  exists st'. split; [reflexivity|].
  split; [by injection Hload as <-|]. split; [by injection Hload as <-|].
  apply (item_load_values_are_None mask_loader mask_fs st');
    [reflexivity|exact Hload].
Defined.

(** X11: every key of the [data] that [load()] returns was accepted by the
    validator: a key that the validator refuses is never stored. *)
Theorem loaded_keys_pass_validation
    (self : FileLoader) (fs : filesystem) (st' : accum) :
  FileLoader.load self fs = Return st' ->
  keys_are (fun key => _validate self key = true) st'.
Proof.
  apply (load_invariant self (keys_are (fun key => _validate self key = true))).
  - intros line m s s'. by apply keys_are_step.
  - apply keys_are_empty.
Qed.

Lemma loaded_keys_pass_validation_witness :
  exists st',
    FileLoader.load atom_loader use_fs = Return st' /\
    data st' !! "portage" = None /\
    is_Some (data st' !! "sys-apps/portage") /\
    keys_are (fun key => Str.contains "/" key = true) st'.
Proof.
  destruct (FileLoader.load atom_loader use_fs) as [st'|e] eqn:Hload;
    [|discriminate Hload].
  exists st'. split; [reflexivity|].
  split; [by injection Hload as <-|].
  split; [injection Hload as <-; by eexists|].
  exact (loaded_keys_pass_validation atom_loader use_fs st' Hload).
Defined.

(** X12: the keys of the [data] that [load()] returns have the shape of
    the grammar: for an item list or a key list, a non-empty string without
    whitespace; for key=value lines, a non-empty string without [=]. *)
Theorem loaded_keys_fit_the_grammar
    (self : FileLoader) (fs : filesystem) (st' : accum) :
  FileLoader.load self fs = Return st' ->
  keys_are (good_key (class_of self)) st'.
Proof.
  apply (load_invariant self (keys_are (good_key (class_of self)))).
  - intros line m s s'. by apply keys_are_step.
  - apply keys_are_empty.
Qed.

Lemma loaded_keys_fit_the_grammar_witness :
  exists st',
    FileLoader.load kv_loader make_conf_fs = Return st' /\
    is_Some (data st' !! "CFLAGS ") /\
    keys_are kv_key st'.
Proof.
  destruct (FileLoader.load kv_loader make_conf_fs) as [st'|e] eqn:Hload;
    [|discriminate Hload].
  exists st'. split; [reflexivity|].
  split; [injection Hload as <-; by eexists|].
  exact (loaded_keys_fit_the_grammar kv_loader make_conf_fs st' Hload).
Defined.

(** X13: over the lines of a file the error list under the loader's path
    only grows at its end, by at most one message per line, and every
    message added is one of the three diagnostics. *)
Theorem errors_only_grow_by_diagnostics
    (self : FileLoader) (lines : list string) (n : nat) (st st' : accum) :
  parse_lines (lineParser self) lines n st = Return st' ->
  exists added,
    default [] (errors st' !! fname self) =
      (default [] (errors st !! fname self) ++ added)%list /\
    length added <= length lines /\
    Forall diagnostic added.
Proof.
  intros Hrun.
  destruct (parse_lines_errors self lines n st st' Hrun)
    as (added & Heq & Hlen & Hall).
  exists added. split; [done|]. split; [done|].
  eapply Forall_impl; [exact Hall|].
  intros msg [Hm|[Hv _]]; [by left|by right].
Qed.

Lemma errors_only_grow_by_diagnostics_witness :
  exists st',
    parse_lines (lineParser kv_loader)
      ["USE=doc" +:+ nl; "no separator" +:+ nl; "=orphan" +:+ nl] 0
      empty_accum = Return st' /\
    errors st' !! "make.conf" =
      Some ["Malformed data at line: 2, data no separator";
            "Malformed key at line: 3, key "] /\
    exists added,
      default [] (errors st' !! "make.conf") = added /\
      length added <= 3 /\
      Forall diagnostic added.
Proof.
  destruct (parse_lines (lineParser kv_loader)
              ["USE=doc" +:+ nl; "no separator" +:+ nl; "=orphan" +:+ nl] 0
              empty_accum) as [st'|e] eqn:Hrun; [|discriminate Hrun].
  exists st'. split; [reflexivity|]. split; [by injection Hrun as <-|].
  destruct (errors_only_grow_by_diagnostics kv_loader _ 0 empty_accum st' Hrun)
    as (added & Heq & Hlen & Hall).
  exists added. split; [exact Heq|]. split; [exact Hlen|exact Hall].
Defined.

(** X14: a loader built without a validator never records a validation
    failure: every message that its parser adds reports a malformed line. *)
Theorem default_validator_never_refuses
    (self : FileLoader) (lines : list string) (n : nat) (st st' : accum) :
  _validate self = DataLoader.init None ->
  parse_lines (lineParser self) lines n st = Return st' ->
  exists added,
    default [] (errors st' !! fname self) =
      (default [] (errors st !! fname self) ++ added)%list /\
    Forall malformed added.
Proof.
  intros Hdef Hrun.
  destruct (parse_lines_errors self lines n st st' Hrun)
    as (added & Heq & _ & Hall).
  exists added. split; [done|].
  eapply Forall_impl; [exact Hall|].
  intros msg [Hm|[_ [key Hkey]]]; [done|].
  rewrite Hdef in Hkey. discriminate Hkey.
Qed.

Lemma default_validator_never_refuses_witness :
  exists st' added,
    parse_lines (lineParser use_loader)
      ["portage build" +:+ nl; "lonely" +:+ nl] 0 empty_accum = Return st' /\
    default [] (errors st' !! "package.use") = added /\
    Forall malformed added.
Proof.
  destruct (parse_lines (lineParser use_loader)
              ["portage build" +:+ nl; "lonely" +:+ nl] 0 empty_accum)
    as [st'|e] eqn:Hrun; [|discriminate Hrun].
  destruct (default_validator_never_refuses use_loader
              ["portage build" +:+ nl; "lonely" +:+ nl] 0 empty_accum st')
    as (added & Heq & Hall); [reflexivity|exact Hrun|].
  exists st', added. split; [reflexivity|]. split; [exact Heq|exact Hall].
Defined.

(** ** What a line can touch *)



(** X16: the validator is called at most once per line, and then with the
    key of that line. *)
Theorem validator_called_at_most_once_per_line
    (self : FileLoader) (line : string) (n : nat) (st st' : accum) :
  lineParser self line n st = Return st' ->
  validated st' = validated st \/
  validated st' = (validated st ++ [line_key (class_of self) line])%list.
Proof.
  intros Hrun. apply (effect_validated self line n).
  by apply lineParser_effect.
Qed.

Lemma validator_called_at_most_once_per_line_witness :
  exists st',
    lineParser atom_loader "sys-apps/portage doc" 0 empty_accum = Return st' /\
    validated st' = ["sys-apps/portage"].
Proof.
  destruct (lineParser atom_loader "sys-apps/portage doc" 0 empty_accum)
    as [st'|e] eqn:Hrun; [|discriminate Hrun].
  exists st'. split; [reflexivity|].
  destruct (validator_called_at_most_once_per_line
              atom_loader "sys-apps/portage doc" 0 empty_accum st' Hrun)
    as [H|H]; [|exact H].
  injection Hrun as <-. discriminate H.
Defined.

(** ** Lists only grow *)

Section Growth.

Variable self : FileLoader.
Hypothesis lists : class_of self = KeyListFileLoader_class \/
                   class_of self = KeyValuePairFileLoader_class.

Lemma extends_more (v : pyval) (l : list pyval) (x : pyval) :
  extends v (VList l) -> extends v (VList (l ++ [x])).
Proof.
  intros [<-|(l0 & more & -> & [= ->])]; right.
  - by exists l, [x].
  - exists l0, (more ++ [x])%list. by rewrite app_assoc.
Qed.

Lemma keeps_step (st0 : accum) (line : string) (n : nat) (st st' : accum) :
  keeps st0 st -> effect self line n st st' -> keeps st0 st'.
Proof.
  intros Hk He key v Hv. destruct (Hk key v Hv) as (v' & Hv' & Hext).
  destruct (effect_data self line n st st' He)
    as [->|(k & w & _ & _ & _ & Hs & -> & _)]; [by exists v'|].
  destruct (decide (key = k)) as [->|Hne].
  - rewrite lookup_insert_eq. exists w. split; [done|].
    assert (exists value, value <> [] /\
              ((data st !! k = None /\ w = strs value) \/
               (exists l, data st !! k = Some (VList l) /\
                          w = VList (l ++ [strs value])%list)))
      as (value & _ & [[Hnone _]|(l & Hl & ->)]).
    { by destruct lists as [Hc|Hc]; rewrite Hc in Hs. }
    + by rewrite Hnone in Hv'.
    + rewrite Hl in Hv'. injection Hv' as <-. by apply extends_more.
  - rewrite lookup_insert_ne by done. by exists v'.
Qed.

End Growth.

(** X17: in the key-list and key=value grammars nothing that [data] holds
    is lost or replaced while files are read: each entry present before is
    present after, with the same value or, for a list, the same list with
    more elements at its end. *)
Theorem list_data_only_grows
    (self : FileLoader) (fs : filesystem) (fns : list pyval) (st st' : accum) :
  class_of self = KeyListFileLoader_class \/
  class_of self = KeyValuePairFileLoader_class ->
  parse_files (lineParser self) fs fns st = Return st' ->
  keeps st st'.
Proof.
  intros Hcls. apply (parse_files_invariant self (keeps st)).
  - intros line m s s'. by apply keeps_step.
  - intros key v Hv. exists v. split; [done|by left].
Qed.

Lemma list_data_only_grows_witness :
  exists st',
    parse_files (lineParser use_loader) use_fs [VStr "package.use"]
      (set_data "sys-apps/portage" (strs ["held"]) empty_accum) = Return st' /\
    data st' !! "sys-apps/portage" =
      Some (VList [VStr "held"; strs ["doc"]; strs ["-ipc"; "python3"]]) /\
    keeps (set_data "sys-apps/portage" (strs ["held"]) empty_accum) st'.
Proof.
  destruct (parse_files (lineParser use_loader) use_fs [VStr "package.use"]
              (set_data "sys-apps/portage" (strs ["held"]) empty_accum))
    as [st'|e] eqn:Hrun; [|discriminate Hrun].
  exists st'. split; [reflexivity|]. split; [by injection Hrun as <-|].
  apply (list_data_only_grows use_loader use_fs [VStr "package.use"]);
    [by left|exact Hrun].
Defined.

(** ** A key that comes back *)




(** ** TestTextLoader and LoaderError *)

(** X19: [load()] of a [TestTextLoader] returns what the setters stored:
    [setData] with a dict returns normally and replaces the data only,
    [setErrors] stores any object, a mapping or not, and replaces the errors
    only, and the two setters commute. *)
Theorem TestTextLoader_returns_what_was_set
    (self : TestTextLoader.t) (d : gmap string pyval) (e : pyval) :
  (TestTextLoader.setData self (VDict d)).2 = Return VNone /\
  TestTextLoader.load (TestTextLoader.setData self (VDict d)).1 =
    Return (VTuple [VDict d; TestTextLoader.errors self]) /\
  TestTextLoader.load (TestTextLoader.setErrors self e).1 =
    Return (VTuple [TestTextLoader.data self; e]) /\
  (TestTextLoader.setErrors (TestTextLoader.setData self (VDict d)).1 e).1 =
    (TestTextLoader.setData (TestTextLoader.setErrors self e).1 (VDict d)).1.
Proof. repeat split. Qed.

(** X20: the text of a [LoaderError] starts with "Failed while loading
    resource: " and, for a given resource, tells the messages apart; it does
    not tell every two errors apart, since a resource may itself contain
    ", error was: ". *)
Theorem LoaderError_str_tells_messages_apart :
  (forall e, Str.startswith (LoaderError.str e)
               "Failed while loading resource: " = true) /\
  (forall e1 e2,
     LoaderError.resource e1 = LoaderError.resource e2 ->
     LoaderError.str e1 = LoaderError.str e2 -> e1 = e2) /\
  (exists e1 e2, e1 <> e2 /\ LoaderError.str e1 = LoaderError.str e2).
Proof.
  split; [|split].
  - intros e. apply startswith_own_prefix.
  - intros [r1 m1] [r2 m2]. unfold LoaderError.str. simpl. intros <- H.
    repeat apply String.app_inj in H. by rewrite H.
  - exists (LoaderError.init "a, error was: b" "c"),
           (LoaderError.init "a" "b, error was: c").
    split; [discriminate|reflexivity].
Qed.

Lemma LoaderError_str_tells_messages_apart_witness :
  Str.startswith (LoaderError.str (LoaderError.init "make.conf" "no such file"))
    "Failed while loading resource: " = true /\
  LoaderError.str (LoaderError.init "make.conf" "no such file") =
    "Failed while loading resource: make.conf, error was: no such file".
Proof.
  destruct LoaderError_str_tells_messages_apart as (Hstart & _ & _).
  split; [apply Hstart|reflexivity].
Defined.
